(** * mai_util.pagerduty_client: a shallow embedding of [client.py]

    The module is a thin client of the PagerDuty Events API v2.  It
    talks to two external collaborators, Google Secret Manager and the
    [requests] HTTP library, and to the [logging] module.  The embedding
    keeps the Python text recognisable: every method is a program in a
    small monad whose operations are the calls the method makes to the
    outside world and the reads and writes of the attributes of [self];
    [try ... except] is a combinator on such programs.  A program is
    run against an arbitrary, possibly stateful, environment, which
    yields the value returned or the exception raised, the final
    attributes of the instance, and the trace of every operation
    performed. *)

From Stdlib Require Import ZArith NArith List Ascii String Lia Bool.
From Stdlib.Strings Require Import Byte.
From Stdlib Require Import DecimalString.
From stdpp Require Import base gmap strings list fin_maps.

Set Warnings "-register-all".

Open Scope Z_scope.

(* ===================================================================== *)
(** ** Python data *)
(* ===================================================================== *)

(** A Python [str] is a sequence of Unicode code points; [bytes] is a
    sequence of octets. *)
Definition codepoint := N.
Definition str := list codepoint.
Definition bytes := list Byte.byte.

(** String literals of the source are ASCII; [lit] reads them as [str]. *)
Definition lit (s : string) : str :=
  map (fun a => N_of_ascii a) (list_ascii_of_string s).

(** Floats only matter through their truth value and are kept symbolic. *)
Inductive pyfloat : Type :=
| FloatZero (negative : bool)
| FloatFinite (negative : bool) (mantissa : positive) (exponent : Z)
| FloatInf (negative : bool)
| FloatNan.

(** The values that flow through the client: what [response.json()]
    yields, what is put in the request body, and what the methods
    return.  A [dict] keeps insertion order, so it is an association
    list (with distinct keys when built by [dict_setitem]). *)
Inductive pyvalue : Type :=
| PyNone
| PyBool (b : bool)
| PyInt (z : Z)
| PyFloat (f : pyfloat)
| PyStr (s : str)
| PyList (l : list pyvalue)
| PyDict (d : list (str * pyvalue)).

Definition dict := list (str * pyvalue).

Definition str_eqb (a b : str) : bool := bool_decide (a = b).

(** Python truth value testing ([if x:], [not x], [x or y]). *)
Definition truthy (v : pyvalue) : bool :=
  match v with
  | PyNone => false
  | PyBool b => b
  | PyInt z => negb (z =? 0)
  | PyFloat (FloatZero _) => false
  | PyFloat _ => true
  | PyStr s => match s with [] => false | _ => true end
  | PyList l => match l with [] => false | _ => true end
  | PyDict d => match d with [] => false | _ => true end
  end.

(** [a or b]. *)
Definition py_or (a b : pyvalue) : pyvalue := if truthy a then a else b.

(** Arguments annotated [Optional[str]] and [Optional[Dict]] as values. *)
Definition of_opt_str (o : option str) : pyvalue :=
  match o with Some s => PyStr s | None => PyNone end.

Definition of_opt_dict (o : option dict) : pyvalue :=
  match o with Some d => PyDict d | None => PyNone end.

(** [d.get(k)] on a dict: the value, or [None]. *)
Fixpoint dict_get (d : dict) (k : str) : option pyvalue :=
  match d with
  | [] => None
  | (k', v) :: d' => if str_eqb k' k then Some v else dict_get d' k
  end.

(** [d[k] = v]: overwrite in place when the key exists, else append. *)
Fixpoint dict_setitem (d : dict) (k : str) (v : pyvalue) : dict :=
  match d with
  | [] => [(k, v)]
  | (k', v') :: d' =>
      if str_eqb k' k then (k', v) :: d' else (k', v') :: dict_setitem d' k v
  end.

(** [d[k1][k2] = v] for a dict [d] whose entry [k1] is a dict. *)
Fixpoint dict_setitem2 (d : dict) (k1 k2 : str) (v : pyvalue) : dict :=
  match d with
  | [] => []
  | (k', v') :: d' =>
      if str_eqb k' k1
      then match v' with
           | PyDict inner => (k', PyDict (dict_setitem inner k2 v)) :: d'
           | _ => (k', v') :: d'
           end
      else (k', v') :: dict_setitem2 d' k1 k2 v
  end.

(* ===================================================================== *)
(** ** [bytes.decode("UTF-8")] and [str.strip()] *)
(* ===================================================================== *)

Definition byte_val (b : Byte.byte) : N := Byte.to_N b.

Definition in_range (lo hi x : N) : bool := ((lo <=? x) && (x <=? hi))%N.

Definition is_cont (b : Byte.byte) : bool := in_range 128 191 (byte_val b).

Definition cont_bits (b : Byte.byte) : N := (byte_val b - 128)%N.

(** Strict UTF-8: shortest form only, no surrogates, at most U+10FFFF.
    [None] stands for [UnicodeDecodeError]. *)
Fixpoint utf8_decode (bs : bytes) : option str :=
  match bs with
  | [] => Some []
  | b0 :: rest =>
      let v0 := byte_val b0 in
      if (v0 <? 128)%N then
        option_map (cons v0) (utf8_decode rest)
      else if in_range 194 223 v0 then
        match rest with
        | b1 :: rest1 =>
            if is_cont b1
            then option_map (cons ((v0 - 192) * 64 + cont_bits b1)%N)
                            (utf8_decode rest1)
            else None
        | _ => None
        end
      else if in_range 224 239 v0 then
        match rest with
        | b1 :: b2 :: rest2 =>
            let lo := if (v0 =? 224)%N then 160%N else 128%N in
            let hi := if (v0 =? 237)%N then 159%N else 191%N in
            if in_range lo hi (byte_val b1) && is_cont b2
            then option_map
                   (cons ((v0 - 224) * 4096 + cont_bits b1 * 64 + cont_bits b2)%N)
                   (utf8_decode rest2)
            else None
        | _ => None
        end
      else if in_range 240 244 v0 then
        match rest with
        | b1 :: b2 :: b3 :: rest3 =>
            let lo := if (v0 =? 240)%N then 144%N else 128%N in
            let hi := if (v0 =? 244)%N then 143%N else 191%N in
            if in_range lo hi (byte_val b1) && is_cont b2 && is_cont b3
            then option_map
                   (cons ((v0 - 240) * 262144 + cont_bits b1 * 4096
                          + cont_bits b2 * 64 + cont_bits b3)%N)
                   (utf8_decode rest3)
            else None
        | _ => None
        end
      else None
  end.

(** The code points [str.strip()] removes ([str.isspace]). *)
Definition is_space (c : codepoint) : bool :=
  (in_range 9 13 c || in_range 28 32 c || (c =? 133) || (c =? 160)
   || (c =? 5760) || in_range 8192 8202 c || (c =? 8232) || (c =? 8233)
   || (c =? 8239) || (c =? 8287) || (c =? 12288))%N.

Fixpoint lstrip (s : str) : str :=
  match s with
  | [] => []
  | c :: s' => if is_space c then lstrip s' else s
  end.

Definition rstrip (s : str) : str := rev (lstrip (rev s)).

Definition strip (s : str) : str := rstrip (lstrip s).

(* ===================================================================== *)
(** ** Exceptions and HTTP responses *)
(* ===================================================================== *)

(** What the two [except] clauses of the module tell apart: whether the
    class derives from [Exception], and whether it derives from
    [requests.exceptions.RequestException]. *)
Inductive exc_class : Type :=
| BaseExceptionSubclass (name : string)      (* KeyboardInterrupt, SystemExit *)
| ExceptionSubclass (name : string)          (* under Exception, outside requests *)
| RequestExceptionSubclass (name : string).  (* RequestException and below *)

Definition isinstance_Exception_class (c : exc_class) : bool :=
  match c with BaseExceptionSubclass _ => false | _ => true end.

Definition isinstance_RequestException_class (c : exc_class) : bool :=
  match c with RequestExceptionSubclass _ => true | _ => false end.

(** A [requests.Response]: the status line, the body as text, and what
    [response.json()] does on that body (the parsed value, or the
    class and message of the exception the parser raises). *)
Record Response : Type := mkResponse {
  status_code : Z;
  reason : str;
  url : str;
  text : str;
  json_result : (exc_class * str) + pyvalue
}.

(** An exception instance; [exc_response] is the [response] attribute
    every [RequestException] has (it may be [None]). *)
Record exn : Type := mkExn {
  exc_type : exc_class;
  exc_message : str;
  exc_response : option Response
}.

Definition isinstance_Exception (e : exn) : bool :=
  isinstance_Exception_class (exc_type e).

Definition isinstance_RequestException (e : exn) : bool :=
  isinstance_RequestException_class (exc_type e).

Definition AttributeError (msg : string) : exn :=
  mkExn (ExceptionSubclass "AttributeError") (lit msg) None.

Definition UnicodeDecodeError : exn :=
  mkExn (ExceptionSubclass "UnicodeDecodeError")
        (lit "'utf-8' codec can't decode bytes") None.

Definition str_of_int (z : Z) : str := lit (NilZero.string_of_int (Z.to_int z)).

Definition HTTPError (kind : string) (r : Response) : exn :=
  mkExn (RequestExceptionSubclass "HTTPError")
        (str_of_int (status_code r) ++ lit kind ++ reason r
         ++ lit " for url: " ++ url r)
        (Some r).

(* ===================================================================== *)
(** ** Operations and programs *)
(* ===================================================================== *)

Record PostRequest : Type := mkPost {
  post_url : str;
  post_json : pyvalue;
  post_headers : list (str * str);
  post_timeout : Z
}.

(** The value interpolated in a log line is kept as it is, unformatted. *)
Inductive fmt_arg : Type :=
| FmtNothing
| FmtValue (v : pyvalue)
| FmtExn (e : exn).

Inductive log_level : Type := ERROR | INFO.

Inductive op : Type :=
| OpSecretManagerServiceClient
| OpAccessSecretVersion (name : str)
| OpRequestsPost (req : PostRequest)
| OpLog (lvl : log_level) (template : string) (arg : fmt_arg)
| OpGetAttr (name : string)
| OpSetAttr (name : string) (v : pyvalue).

Definition answer (o : op) : Type :=
  match o with
  | OpSecretManagerServiceClient => (exn + unit)%type
  | OpAccessSecretVersion _ => (exn + bytes)%type
  | OpRequestsPost _ => (exn + Response)%type
  | OpLog _ _ _ => unit
  | OpGetAttr _ => option pyvalue
  | OpSetAttr _ _ => unit
  end.

Inductive prog (A : Type) : Type :=
| Ret (a : A)
| Raise (e : exn)
| Do (o : op) (k : answer o -> prog A).

Arguments Ret {A} a.
Arguments Raise {A} e.
Arguments Do {A} o k.

Fixpoint bind {A B} (p : prog A) (f : A -> prog B) : prog B :=
  match p with
  | Ret a => f a
  | Raise e => Raise e
  | Do o k => Do o (fun r => bind (k r) f)
  end.

(** [try: body / except C as e: handler e], where [catches] decides
    [isinstance(e, C)]. *)
Fixpoint try_except {A} (body : prog A) (catches : exn -> bool)
         (handler : exn -> prog A) : prog A :=
  match body with
  | Ret a => Ret a
  | Raise e => if catches e then handler e else Raise e
  | Do o k => Do o (fun r => try_except (k r) catches handler)
  end.

Declare Scope prog_scope.
Delimit Scope prog_scope with prog.
Bind Scope prog_scope with prog.

Notation "x <- p ;; q" := (bind p (fun x => q))
  (at level 100, p at next level, right associativity) : prog_scope.
Notation "p ;; q" := (bind p (fun _ => q))
  (at level 100, right associativity) : prog_scope.

Open Scope prog_scope.

Definition lift_result {A} (r : exn + A) : prog A :=
  match r with inl e => Raise e | inr a => Ret a end.

Definition SecretManagerServiceClient : prog unit :=
  Do OpSecretManagerServiceClient lift_result.

(** [client.access_secret_version(name=...).payload.data] *)
Definition access_secret_version (name : str) : prog bytes :=
  Do (OpAccessSecretVersion name) lift_result.

Definition requests_post (u : str) (json : pyvalue)
           (headers : list (str * str)) (timeout : Z) : prog Response :=
  Do (OpRequestsPost (mkPost u json headers timeout)) lift_result.

Definition logger_error (template : string) (arg : fmt_arg) : prog unit :=
  Do (OpLog ERROR template arg) Ret.

Definition logger_info (template : string) (arg : fmt_arg) : prog unit :=
  Do (OpLog INFO template arg) Ret.

(** [self.name]; a missing attribute raises [AttributeError]. *)
Definition getattr (name : string) : prog pyvalue :=
  Do (OpGetAttr name)
     (fun r => match r with
               | Some v => Ret v
               | None => Raise (AttributeError "object has no such attribute")
               end).

(** [self.name = v] *)
Definition setattr (name : string) (v : pyvalue) : prog unit :=
  Do (OpSetAttr name v) Ret.

(** [data.decode("UTF-8")] *)
Definition decode_utf8 (data : bytes) : prog str :=
  match utf8_decode data with
  | Some s => Ret s
  | None => Raise UnicodeDecodeError
  end.

(** [Response.raise_for_status()] of [requests]: an [HTTPError] carrying
    the response for 4xx and 5xx, nothing otherwise. *)
Definition raise_for_status (r : Response) : prog unit :=
  if (400 <=? status_code r) && (status_code r <? 500)
  then Raise (HTTPError " Client Error: " r)
  else if (500 <=? status_code r) && (status_code r <? 600)
  then Raise (HTTPError " Server Error: " r)
  else Ret tt.

(** [Response.json()] *)
Definition json (r : Response) : prog pyvalue :=
  match json_result r with
  | inl (c, msg) => Raise (mkExn c msg None)
  | inr v => Ret v
  end.

(** [v.get(k)]: only a dict has the method. *)
Definition py_get (v : pyvalue) (k : str) : prog pyvalue :=
  match v with
  | PyDict d => Ret (default PyNone (dict_get d k))
  | _ => Raise (AttributeError "object has no attribute 'get'")
  end.

(* ===================================================================== *)
(** ** Running a program *)
(* ===================================================================== *)

(** A class of the module: its name and its one class attribute. *)
Record pyclass : Type := mkClass {
  class_name : string;
  ROUTING_KEY_SECRET : str
}.

(** An instance: its class and its [__dict__]. *)
Record object : Type := mkObject {
  ob_class : pyclass;
  ob_dict : gmap string pyvalue
}.

(** The outside world: an arbitrary state [W] and what the secret
    manager and the HTTP library answer in it.  Every answer may be an
    exception, and may change the state of the world. *)
Record Env (W : Type) : Type := mkEnv {
  env_secret_client : W -> (exn + unit) * W;
  env_access_secret : str -> W -> (exn + bytes) * W;
  env_post : PostRequest -> W -> (exn + Response) * W
}.

Arguments env_secret_client {W} _ _.
Arguments env_access_secret {W} _ _ _.
Arguments env_post {W} _ _ _.

Record state (W : Type) : Type := mkState {
  world : W;
  self : object;
  trace : list op
}.

Arguments mkState {W} _ _ _.
Arguments world {W} _.
Arguments self {W} _.
Arguments trace {W} _.

Inductive outcome (A : Type) : Type :=
| Returned (a : A)
| Raised (e : exn).

Arguments Returned {A} a.
Arguments Raised {A} e.

Definition set_dict (ob : object) (name : string) (v : pyvalue) : object :=
  mkObject (ob_class ob) (<[name := v]> (ob_dict ob)).

(** One operation: its answer, and the state after it.  The operation
    is appended to the trace. *)
Definition perform {W} (env : Env W) (o : op) (s : state W)
  : answer o * state W :=
  let tr := trace s ++ [o] in
  match o return answer o * state W with
  | OpSecretManagerServiceClient =>
      let (r, w) := env_secret_client env (world s) in (r, mkState w (self s) tr)
  | OpAccessSecretVersion name =>
      let (r, w) := env_access_secret env name (world s) in
      (r, mkState w (self s) tr)
  | OpRequestsPost req =>
      let (r, w) := env_post env req (world s) in (r, mkState w (self s) tr)
  | OpLog _ _ _ => (tt, mkState (world s) (self s) tr)
  | OpGetAttr name => (ob_dict (self s) !! name, mkState (world s) (self s) tr)
  | OpSetAttr name v => (tt, mkState (world s) (set_dict (self s) name v) tr)
  end.

Fixpoint run {W A} (env : Env W) (p : prog A) (s : state W)
  : outcome A * state W :=
  match p with
  | Ret a => (Returned a, s)
  | Raise e => (Raised e, s)
  | Do o k => let (r, s') := perform env o s in run env (k r) s'
  end.

(* ===================================================================== *)
(** ** The module *)
(* ===================================================================== *)

Definition PAGERDUTY_EVENTS_API_URL : str :=
  lit "https://events.pagerduty.com/v2/enqueue".

Definition PagerDutyClient : pyclass :=
  mkClass "PagerDutyClient" (lit "PAGERDUTY_ROUTING_KEY").

(** The subclass overrides the class attribute and nothing else. *)
Definition PagerDutyAlertClient : pyclass :=
  mkClass "PagerDutyAlertClient" (lit "PAGERDUTY_VALIDATION_ALERTS_ROUTING_KEY").

(** [a or b] for [a : Optional[str]] and [b : str]. *)
Definition str_or (a : option str) (b : str) : str :=
  match a with
  | Some s => if truthy (PyStr s) then s else b
  | None => b
  end.

Definition secret_path_of (gcp_project secret_name : str) : str :=
  lit "projects/" ++ gcp_project ++ lit "/secrets/" ++ secret_name
  ++ lit "/versions/latest".

Definition __init__ (cls : pyclass) (gcp_project : str)
           (routing_key_secret : option str) : prog unit :=
  setattr "gcp_project" (PyStr gcp_project) ;;
  let secret_name := str_or routing_key_secret (ROUTING_KEY_SECRET cls) in
  try_except
    (client <- SecretManagerServiceClient ;;
     let secret_path := secret_path_of gcp_project secret_name in
     data <- access_secret_version secret_path ;;
     decoded <- decode_utf8 data ;;
     setattr "routing_key" (PyStr (strip decoded)))
    isinstance_Exception
    (fun e =>
       logger_error "Failed to initialize PagerDuty client: " (FmtExn e) ;;
       setattr "routing_key" PyNone).

Definition json_headers : list (str * str) :=
  [(lit "Content-Type", lit "application/json")].

(** Logging of a failed request, shared by the two [except] clauses. *)
Definition log_request_failure (template : string) (e : exn) : prog unit :=
  logger_error template (FmtExn e) ;;
  match exc_response e with
  | Some r => logger_error "Response: " (FmtValue (PyStr (text r)))
  | None => Ret tt
  end.

(** The request body of [trigger_incident]: the dict literal and the
    two conditional assignments. *)
Definition trigger_payload (routing_key : pyvalue) (summary severity source : str)
           (custom_details : option dict) (dedup_key : option str) : dict :=
  let payload : dict :=
    [ (lit "routing_key", routing_key);
      (lit "event_action", PyStr (lit "trigger"));
      (lit "payload",
       PyDict [ (lit "summary", PyStr summary);
                (lit "severity", PyStr severity);
                (lit "source", PyStr source) ]) ] in
  let payload :=
    if truthy (of_opt_dict custom_details)
    then dict_setitem2 payload (lit "payload") (lit "custom_details")
                       (of_opt_dict custom_details)
    else payload in
  let payload :=
    if truthy (of_opt_str dedup_key)
    then dict_setitem payload (lit "dedup_key") (of_opt_str dedup_key)
    else payload in
  payload.

Definition trigger_incident (summary severity source : str)
           (custom_details : option dict) (dedup_key : option str)
  : prog pyvalue :=
  routing_key <- getattr "routing_key" ;;
  if negb (truthy routing_key) then
    logger_error "PagerDuty routing key not available, cannot trigger incident"
                 FmtNothing ;;
    Ret PyNone
  else
    routing_key <- getattr "routing_key" ;;
    let payload :=
      trigger_payload routing_key summary severity source
                      custom_details dedup_key in
    try_except
      (response <- requests_post PAGERDUTY_EVENTS_API_URL (PyDict payload)
                                 json_headers 10 ;;
       raise_for_status response ;;
       result <- json response ;;
       echoed <- py_get result (lit "dedup_key") ;;
       let incident_key := py_or echoed (of_opt_str dedup_key) in
       logger_info "PagerDuty incident triggered successfully: "
                   (FmtValue incident_key) ;;
       Ret incident_key)
      isinstance_RequestException
      (fun e =>
         log_request_failure "Failed to trigger PagerDuty incident: " e ;;
         Ret PyNone).

(** The request body of [resolve_incident]. *)
Definition resolve_payload (routing_key : pyvalue) (dedup_key : str)
           (summary : option str) : dict :=
  let payload : dict :=
    [ (lit "routing_key", routing_key);
      (lit "event_action", PyStr (lit "resolve"));
      (lit "dedup_key", PyStr dedup_key) ] in
  let payload :=
    if truthy (of_opt_str summary)
    then dict_setitem payload (lit "payload")
                      (PyDict [ (lit "summary", of_opt_str summary) ])
    else payload in
  payload.

Definition resolve_incident (dedup_key : str) (summary : option str)
  : prog pyvalue :=
  routing_key <- getattr "routing_key" ;;
  if negb (truthy routing_key) then
    logger_error "PagerDuty routing key not available, cannot resolve incident"
                 FmtNothing ;;
    Ret (PyBool false)
  else
    routing_key <- getattr "routing_key" ;;
    let payload := resolve_payload routing_key dedup_key summary in
    try_except
      (response <- requests_post PAGERDUTY_EVENTS_API_URL (PyDict payload)
                                 json_headers 10 ;;
       raise_for_status response ;;
       logger_info "PagerDuty incident resolved successfully: "
                   (FmtValue (PyStr dedup_key)) ;;
       Ret (PyBool true))
      isinstance_RequestException
      (fun e =>
         log_request_failure "Failed to resolve PagerDuty incident: " e ;;
         Ret (PyBool false)).

(* ===================================================================== *)
(** ** Callers: construction and sequences of calls *)
(* ===================================================================== *)

Definition new_object (cls : pyclass) : object := mkObject cls ∅.

(** [cls(gcp_project, routing_key_secret)]: [__init__] on a fresh
    instance, in a world [w] with nothing performed yet. *)
Definition construct {W} (env : Env W) (cls : pyclass) (gcp_project : str)
           (routing_key_secret : option str) (w : W)
  : outcome unit * state W :=
  run env (__init__ cls gcp_project routing_key_secret)
      (mkState w (new_object cls) []).

Inductive call : Type :=
| CallTrigger (summary severity source : str)
              (custom_details : option dict) (dedup_key : option str)
| CallResolve (dedup_key : str) (summary : option str).

Definition call_prog (c : call) : prog pyvalue :=
  match c with
  | CallTrigger summary severity source custom_details dedup_key =>
      trigger_incident summary severity source custom_details dedup_key
  | CallResolve dedup_key summary => resolve_incident dedup_key summary
  end.

(** A caller that makes the calls one after the other on the same
    instance and keeps going whatever each of them does. *)
Fixpoint run_calls {W} (env : Env W) (cs : list call) (s : state W)
  : list (outcome pyvalue) * state W :=
  match cs with
  | [] => ([], s)
  | c :: cs' =>
      let (o, s1) := run env (call_prog c) s in
      let (os, s2) := run_calls env cs' s1 in
      (o :: os, s2)
  end.

(** *** Reading a trace *)

Fixpoint posts (tr : list op) : list PostRequest :=
  match tr with
  | [] => []
  | OpRequestsPost req :: tr' => req :: posts tr'
  | _ :: tr' => posts tr'
  end.

Fixpoint secret_reads (tr : list op) : list str :=
  match tr with
  | [] => []
  | OpAccessSecretVersion name :: tr' => name :: secret_reads tr'
  | _ :: tr' => secret_reads tr'
  end.

Fixpoint client_creations (tr : list op) : nat :=
  match tr with
  | [] => 0%nat
  | OpSecretManagerServiceClient :: tr' => S (client_creations tr')
  | _ :: tr' => client_creations tr'
  end.

Fixpoint attr_writes (tr : list op) : list (string * pyvalue) :=
  match tr with
  | [] => []
  | OpSetAttr name v :: tr' => (name, v) :: attr_writes tr'
  | _ :: tr' => attr_writes tr'
  end.

(** [self.routing_key] of the instance of a state, when it is set. *)
Definition routing_key_of {W} (s : state W) : option pyvalue :=
  ob_dict (self s) !! "routing_key".

(** A program that never assigns an attribute of [self]. *)
Inductive read_only {A} : prog A -> Prop :=
| ro_ret a : read_only (Ret a)
| ro_raise e : read_only (Raise e)
| ro_do o k :
    (forall name v, o <> OpSetAttr name v) ->
    (forall r, read_only (k r)) ->
    read_only (Do o k).

(** *** The request bodies as the interface description words them *)

(** [custom_details] and [dedup_key] are the optional members; [None]
    leaves the member out. *)
Definition trigger_body (routing_key : pyvalue) (summary severity source : str)
           (custom_details : option dict) (dedup_key : option str) : pyvalue :=
  PyDict
    ([ (lit "routing_key", routing_key);
       (lit "event_action", PyStr (lit "trigger"));
       (lit "payload",
        PyDict ([ (lit "summary", PyStr summary);
                  (lit "severity", PyStr severity);
                  (lit "source", PyStr source) ]
                ++ match custom_details with
                   | Some d => [ (lit "custom_details", PyDict d) ]
                   | None => []
                   end)) ]
     ++ match dedup_key with
        | Some k => [ (lit "dedup_key", PyStr k) ]
        | None => []
        end).

Definition resolve_body (routing_key : pyvalue) (dedup_key : str)
           (summary : option str) : pyvalue :=
  PyDict
    ([ (lit "routing_key", routing_key);
       (lit "event_action", PyStr (lit "resolve"));
       (lit "dedup_key", PyStr dedup_key) ]
     ++ match summary with
        | Some t => [ (lit "payload", PyDict [ (lit "summary", PyStr t) ]) ]
        | None => []
        end).

(** An optional argument counts as given when it is not [None] and not
    empty: that is what [if custom_details:] and [if dedup_key:] test. *)
Definition given {A} (o : option (list A)) : option (list A) :=
  match o with
  | Some (x :: l) => Some (x :: l)
  | _ => None
  end.

Definition expected_post (body : pyvalue) : PostRequest :=
  mkPost (lit "https://events.pagerduty.com/v2/enqueue") body
         [(lit "Content-Type", lit "application/json")] 10.

(** *** Sample environments and values *)

(** An environment without state that always gives the same answers. *)
Definition fixed_env (c : exn + unit) (a : exn + bytes) (p : exn + Response)
  : Env unit :=
  mkEnv unit (fun w => (c, w)) (fun _ w => (a, w)) (fun _ w => (p, w)).

(** The transport failure of the repository's tests. *)
Definition ConnectionError : exn :=
  mkExn (RequestExceptionSubclass "ConnectionError") (lit "Network error") None.

(** An environment whose HTTP answers are scripted: each POST consumes
    the next one, and a connection error is raised when none is left. *)
Definition scripted_env (c : exn + unit) (a : exn + bytes)
  : Env (list (exn + Response)) :=
  mkEnv (list (exn + Response))
        (fun w => (c, w)) (fun _ w => (a, w))
        (fun _ w => match w with
                    | [] => (inl ConnectionError, [])
                    | r :: w' => (r, w')
                    end).

Definition boom : exn := mkExn (ExceptionSubclass "Exception") (lit "boom") None.

Definition bytes_of (s : string) : bytes := list_byte_of_string s.

(** A string literal of a JSON text, between double quotes. *)
Definition quoted (s : string) : str := [34%N] ++ lit s ++ [34%N].

(** A response with the given status and body, and what the body
    parses to. *)
Definition response_of (code : Z) (body : str) (parsed : pyvalue) : Response :=
  mkResponse code [] PAGERDUTY_EVENTS_API_URL body (inr parsed).

(** A response whose body is the JSON object with the one member
    [dedup_key], a string. *)
Definition echo_response (code : Z) (key : string) : Response :=
  response_of code
    (lit "{" ++ quoted "dedup_key" ++ lit ": " ++ quoted key ++ lit "}")
    (PyDict [(lit "dedup_key", PyStr (lit key))]).

Definition test_routing_key : str := lit "test-routing-key-123".

(** The environment of the repository's tests: the secret manager
    serves the routing key, and every POST is answered by [p]. *)
Definition test_env (p : exn + Response) : Env unit :=
  fixed_env (inr tt) (inr (bytes_of "test-routing-key-123")) p.

(** The client of the repository's tests once its secret is resolved. *)
Definition test_client : object :=
  mkObject PagerDutyClient
           (<["routing_key" := PyStr test_routing_key]>
              (<["gcp_project" := PyStr (lit "test-project")]> ∅)).

(** A client as [__init__] leaves it when the secret is [key]. *)
Definition client_with (cls : pyclass) (project : str) (key : pyvalue) : object :=
  mkObject cls (<["routing_key" := key]> (<["gcp_project" := PyStr project]> ∅)).

Definition at_client {W} (w : W) (ob : object) : state W := mkState w ob [].

(** Two states that may differ in the class of the instance and in
    what was performed before, and in nothing else. *)
Definition agree {W} (s s' : state W) : Prop :=
  world s = world s' /\ ob_dict (self s) = ob_dict (self s').

(** *** More readers of a trace, and what a sequence of calls should do *)

(** The records handed to the logger, in order. *)
Fixpoint logs (tr : list op) : list (log_level * string * fmt_arg) :=
  match tr with
  | [] => []
  | OpLog lvl template arg :: tr' => (lvl, template, arg) :: logs tr'
  | _ :: tr' => logs tr'
  end.

Definition is_secret_op (o : op) : bool :=
  match o with
  | OpSecretManagerServiceClient | OpAccessSecretVersion _ => true
  | _ => false
  end.

Definition is_post_op (o : op) : bool :=
  match o with OpRequestsPost _ => true | _ => false end.

(** A program none of whose operations is [bad]. *)
Inductive avoids {A} (bad : op -> bool) : prog A -> Prop :=
| av_ret a : avoids bad (Ret a)
| av_raise e : avoids bad (Raise e)
| av_do o k :
    bad o = false ->
    (forall r, avoids bad (k r)) ->
    avoids bad (Do o k).

(** The request a call sends from a client whose routing key is [rk]. *)
Definition call_request (rk : pyvalue) (c : call) : PostRequest :=
  match c with
  | CallTrigger summary severity source custom_details dedup_key =>
      expected_post (trigger_body rk summary severity source
                                  (given custom_details) (given dedup_key))
  | CallResolve dedup_key summary =>
      expected_post (resolve_body rk dedup_key (given summary))
  end.

(** What a call returns when it gives up: [None], respectively [False]. *)
Definition call_sentinel (c : call) : pyvalue :=
  match c with
  | CallTrigger _ _ _ _ _ => PyNone
  | CallResolve _ _ => PyBool false
  end.

(** A string that neither starts nor ends with whitespace. *)
Definition trimmed (s : str) : Prop :=
  match s with
  | [] => True
  | c :: _ => is_space c = false /\ is_space (List.last s c) = false
  end.

(** [bytes] that are all ASCII. *)
Definition all_ascii (data : bytes) : Prop :=
  Forall (fun b => (byte_val b < 128)%N) data.

(** An exception that is not an [Exception]. *)
Definition KeyboardInterrupt : exn :=
  mkExn (BaseExceptionSubclass "KeyboardInterrupt") [] None.

(** An exception of the transport outside [requests]' hierarchy. *)
Definition TypeError : exn :=
  mkExn (ExceptionSubclass "TypeError") (lit "not JSON serializable") None.

(** A response whose body is not JSON, as [requests] 2.27 and later
    report it (a [RequestException]) and as earlier versions do (a
    [ValueError]). *)
Definition not_json_response (code : Z) (c : exc_class) : Response :=
  mkResponse code [] PAGERDUTY_EVENTS_API_URL (lit "<html>")
             (inl (c, lit "Expecting value")).

(* ===================================================================== *)
(** ** How programs run *)
(* ===================================================================== *)

Section Running.
Context {W : Type} (env : Env W).

Lemma run_bind {A B} (p : prog A) (f : A -> prog B) (s : state W) :
  run env (bind p f) s =
  match run env p s with
  | (Returned a, s') => run env (f a) s'
  | (Raised e, s') => (Raised e, s')
  end.
Proof.
  revert s; induction p as [a | e | o k IH]; intros s; simpl; try reflexivity.
  destruct (perform env o s) as [r s']. apply IH.
Qed.

Lemma run_try_except {A} (p : prog A) catches handler (s : state W) :
  run env (try_except p catches handler) s =
  match run env p s with
  | (Returned a, s') => (Returned a, s')
  | (Raised e, s') =>
      if catches e then run env (handler e) s' else (Raised e, s')
  end.
Proof.
  revert s; induction p as [a | e | o k IH]; intros s; simpl.
  - reflexivity.
  - destruct (catches e); reflexivity.
  - destruct (perform env o s) as [r s']. apply IH.
Qed.

(** Performing an operation leaves [self] alone unless it is an
    assignment, and extends the trace by exactly that operation. *)
Lemma perform_trace (o : op) (s : state W) :
  trace (snd (perform env o s)) = trace s ++ [o].
Proof.
  destruct o; simpl; try reflexivity.
  - destruct (env_secret_client env (world s)); reflexivity.
  - destruct (env_access_secret env name (world s)); reflexivity.
  - destruct (env_post env req (world s)); reflexivity.
Qed.

Lemma perform_self (o : op) (s : state W) :
  (forall name v, o <> OpSetAttr name v) ->
  self (snd (perform env o s)) = self s.
Proof.
  intros Hro. destruct o; simpl; try reflexivity.
  - destruct (env_secret_client env (world s)); reflexivity.
  - destruct (env_access_secret env name (world s)); reflexivity.
  - destruct (env_post env req (world s)); reflexivity.
  - exfalso. eapply Hro. reflexivity.
Qed.

(** Every run extends the trace it starts from. *)
Lemma run_trace_extends {A} (p : prog A) (s : state W) :
  exists tr, trace (snd (run env p s)) = trace s ++ tr.
Proof.
  revert s; induction p as [a | e | o k IH]; intros s; simpl.
  - exists []. by rewrite app_nil_r.
  - exists []. by rewrite app_nil_r.
  - pose proof (perform_trace o s) as Ht.
    destruct (perform env o s) as [r s']. simpl in Ht.
    destruct (IH r s') as [tr Htr]. exists (o :: tr).
    rewrite Htr, Ht, <- app_assoc. reflexivity.
Qed.

(** The frame rule of the embedding: a program without assignments
    returns the instance it was given.  By induction on the
    derivation of [read_only]. *)
Lemma read_only_self {A} (p : prog A) (s : state W) :
  read_only p -> self (snd (run env p s)) = self s.
Proof.
  intros Hro. revert s.
  induction Hro as [a | e | o k Ho Hk IH]; intros s; simpl; try reflexivity.
  pose proof (perform_self o s Ho) as Hs.
  destruct (perform env o s) as [r s']. simpl in Hs.
  rewrite IH. exact Hs.
Qed.

Lemma attr_writes_app (a b : list op) :
  attr_writes (a ++ b) = attr_writes a ++ attr_writes b.
Proof.
  induction a as [| o a IH]; simpl; [reflexivity |].
  destruct o; simpl; rewrite IH; reflexivity.
Qed.

Lemma posts_app (a b : list op) : posts (a ++ b) = posts a ++ posts b.
Proof.
  induction a as [| o a IH]; simpl; [reflexivity |].
  destruct o; simpl; rewrite IH; reflexivity.
Qed.

Lemma secret_reads_app (a b : list op) :
  secret_reads (a ++ b) = secret_reads a ++ secret_reads b.
Proof.
  induction a as [| o a IH]; simpl; [reflexivity |].
  destruct o; simpl; rewrite IH; reflexivity.
Qed.

Lemma client_creations_app (a b : list op) :
  client_creations (a ++ b) = (client_creations a + client_creations b)%nat.
Proof.
  induction a as [| o a IH]; simpl; [reflexivity |].
  destruct o; simpl; rewrite IH; reflexivity.
Qed.

Lemma read_only_writes {A} (p : prog A) (s : state W) :
  read_only p ->
  attr_writes (trace (snd (run env p s))) = attr_writes (trace s).
Proof.
  intros Hro. revert s.
  induction Hro as [a | e | o k Ho Hk IH]; intros s; simpl; try reflexivity.
  pose proof (perform_trace o s) as Ht.
  destruct (perform env o s) as [r s']. simpl in Ht.
  rewrite IH, Ht, attr_writes_app. simpl.
  destruct o; simpl; try apply app_nil_r.
  exfalso. eapply Ho. reflexivity.
Qed.

End Running.

(** [read_only] is kept by the combinators, so it can be read off the
    text of a method. *)
Lemma read_only_bind {A B} (p : prog A) (f : A -> prog B) :
  read_only p -> (forall a, read_only (f a)) -> read_only (bind p f).
Proof.
  intros Hp Hf. induction Hp as [a | e | o k Ho Hk IH]; simpl.
  - apply Hf.
  - constructor.
  - constructor; assumption.
Qed.

Lemma read_only_try_except {A} (p : prog A) catches handler :
  read_only p -> (forall e, read_only (handler e)) ->
  read_only (try_except p catches handler).
Proof.
  intros Hp Hh. induction Hp as [a | e | o k Ho Hk IH]; simpl.
  - constructor.
  - destruct (catches e); [apply Hh | constructor].
  - constructor; assumption.
Qed.

(** Closes [read_only] goals over the text of a method: split at every
    combinator, and check that each operation is not an assignment. *)
Ltac read_only_step :=
  match goal with
  | |- read_only (bind _ _) => apply read_only_bind
  | |- read_only (try_except _ _ _) => apply read_only_try_except
  | |- read_only (Do _ _) => constructor; [discriminate |]
  | |- read_only (Ret _) => constructor
  | |- read_only (Raise _) => constructor
  | |- read_only (if ?b then _ else _) => destruct b
  | |- read_only (match ?x with _ => _ end) => destruct x
  | |- forall _, _ => intro
  end.

Lemma read_only_raise_for_status r : read_only (raise_for_status r).
Proof. unfold raise_for_status. repeat read_only_step. Qed.

Lemma read_only_log_request_failure template e :
  read_only (log_request_failure template e).
Proof. unfold log_request_failure, logger_error. repeat read_only_step. Qed.

Lemma read_only_trigger_incident summary severity source custom_details dedup_key :
  read_only (trigger_incident summary severity source custom_details dedup_key).
Proof.
  unfold trigger_incident, getattr, requests_post, logger_error, logger_info,
    json, py_get, lift_result.
  repeat first [ apply read_only_raise_for_status
               | apply read_only_log_request_failure
               | read_only_step ].
Qed.

Lemma read_only_resolve_incident dedup_key summary :
  read_only (resolve_incident dedup_key summary).
Proof.
  unfold resolve_incident, getattr, requests_post, logger_error, logger_info,
    lift_result.
  repeat first [ apply read_only_raise_for_status
               | apply read_only_log_request_failure
               | read_only_step ].
Qed.

(* ===================================================================== *)
(** ** The request bodies *)
(* ===================================================================== *)

Arguments lit : simpl never.
Arguments trigger_payload : simpl never.
Arguments resolve_payload : simpl never.
Arguments expected_post : simpl never.

(** The dict that [trigger_incident] builds step by step is the body of
    the interface description, with the optional members present
    exactly when the argument is given and not empty. *)
Lemma trigger_payload_body rk summary severity source custom_details dedup_key :
  PyDict (trigger_payload rk summary severity source custom_details dedup_key)
  = trigger_body rk summary severity source (given custom_details) (given dedup_key).
Proof.
  destruct custom_details as [[| x d] |], dedup_key as [[| c k] |];
    reflexivity.
Qed.

Lemma resolve_payload_body rk dedup_key summary :
  PyDict (resolve_payload rk dedup_key summary)
  = resolve_body rk dedup_key (given summary).
Proof. destruct summary as [[| c t] |]; reflexivity. Qed.

Lemma trigger_request rk summary severity source custom_details dedup_key :
  mkPost PAGERDUTY_EVENTS_API_URL
         (PyDict (trigger_payload rk summary severity source
                                  custom_details dedup_key))
         json_headers 10
  = expected_post (trigger_body rk summary severity source
                                (given custom_details) (given dedup_key)).
Proof. rewrite trigger_payload_body. reflexivity. Qed.

Lemma resolve_request rk dedup_key summary :
  mkPost PAGERDUTY_EVENTS_API_URL
         (PyDict (resolve_payload rk dedup_key summary)) json_headers 10
  = expected_post (resolve_body rk dedup_key (given summary)).
Proof. rewrite resolve_payload_body. reflexivity. Qed.

Lemma given_Some {A} (o : option (list A)) (l : list A) :
  given o = Some l -> o = Some l /\ l <> [].
Proof.
  destruct o as [[| x l'] |]; simpl; intros H; try discriminate.
  injection H as <-. split; [reflexivity | discriminate].
Qed.

(* ===================================================================== *)
(** ** Calls on a client without a usable routing key *)
(* ===================================================================== *)

Section ShortCircuit.
Context {W : Type} (env : Env W).

(** With a falsy [self.routing_key] ([None] or the empty string),
    [trigger_incident] reads the attribute, logs one error and
    returns [None]. *)
Lemma trigger_incident_short_circuit (s : state W) rk
      summary severity source custom_details dedup_key :
  routing_key_of s = Some rk -> truthy rk = false ->
  run env (trigger_incident summary severity source custom_details dedup_key) s
  = (Returned PyNone,
     mkState (world s) (self s)
       (trace s ++
        [OpGetAttr "routing_key";
         OpLog ERROR
           "PagerDuty routing key not available, cannot trigger incident"
           FmtNothing])).
Proof.
  unfold routing_key_of. intros Hrk Hfalsy.
  unfold trigger_incident. simpl. rewrite Hrk. simpl. rewrite Hfalsy. simpl.
  rewrite <- app_assoc. reflexivity.
Qed.

Lemma resolve_incident_short_circuit (s : state W) rk dedup_key summary :
  routing_key_of s = Some rk -> truthy rk = false ->
  run env (resolve_incident dedup_key summary) s
  = (Returned (PyBool false),
     mkState (world s) (self s)
       (trace s ++
        [OpGetAttr "routing_key";
         OpLog ERROR
           "PagerDuty routing key not available, cannot resolve incident"
           FmtNothing])).
Proof.
  unfold routing_key_of. intros Hrk Hfalsy.
  unfold resolve_incident. simpl. rewrite Hrk. simpl. rewrite Hfalsy. simpl.
  rewrite <- app_assoc. reflexivity.
Qed.

End ShortCircuit.

(** C2.  On a client whose routing key is absent ([None]),
    [trigger_incident] returns [None] and [resolve_incident] returns
    [False], whatever the arguments and whatever the environment would
    answer; neither issues an HTTP POST (the POSTs of the trace are
    those made before the call) and the world is left as it was. *)
Theorem absent_routing_key_short_circuits :
  forall (W : Type) (env : Env W) (s : state W),
    routing_key_of s = Some PyNone ->
    (forall summary severity source custom_details dedup_key,
        let r := run env (trigger_incident summary severity source
                                           custom_details dedup_key) s in
        fst r = Returned PyNone
        /\ posts (trace (snd r)) = posts (trace s)
        /\ world (snd r) = world s)
    /\ (forall dedup_key summary,
           let r := run env (resolve_incident dedup_key summary) s in
           fst r = Returned (PyBool false)
           /\ posts (trace (snd r)) = posts (trace s)
           /\ world (snd r) = world s).
Proof.
  intros W env s Hrk. split; intros.
  - subst r. rewrite (trigger_incident_short_circuit env s PyNone) by done.
    simpl. rewrite posts_app. simpl. rewrite app_nil_r. done.
  - subst r. rewrite (resolve_incident_short_circuit env s PyNone) by done.
    simpl. rewrite posts_app. simpl. rewrite app_nil_r. done.
Qed.

(** C2 on the client of the repository's test of a failed
    initialisation, in an environment that would accept every POST. *)
Lemma absent_routing_key_short_circuits_witness :
  let env := fixed_env (inl boom) (inl boom)
                       (inr (response_of 202 (lit "{}") (PyDict []))) in
  let s := at_client tt (client_with PagerDutyClient (lit "test-project") PyNone) in
  routing_key_of s = Some PyNone
  /\ fst (run env (trigger_incident (lit "test") (lit "error")
                                    (lit "mai-service") None None) s)
     = Returned PyNone
  /\ fst (run env (resolve_incident (lit "test") None) s)
     = Returned (PyBool false).
Proof.
  cbv zeta.
  pose proof (absent_routing_key_short_circuits unit
                (fixed_env (inl boom) (inl boom)
                           (inr (response_of 202 (lit "{}") (PyDict []))))
                (at_client tt (client_with PagerDutyClient (lit "test-project")
                                           PyNone))
                eq_refl) as [Htrigger Hresolve].
  split; [reflexivity |]. split.
  - exact (proj1 (Htrigger (lit "test") (lit "error") (lit "mai-service")
                           None None)).
  - exact (proj1 (Hresolve (lit "test") None)).
Defined.

(* ===================================================================== *)
(** ** Calls on a client with a routing key *)
(* ===================================================================== *)

Arguments raise_for_status : simpl never.

(** Case analysis on everything a run after the POST can depend on. *)
Ltac run_cases :=
  repeat (simpl;
          match goal with
          | |- context [isinstance_RequestException ?e] =>
              destruct (isinstance_RequestException e) eqn:?
          | |- context [match exc_response ?e with _ => _ end] =>
              destruct (exc_response e) eqn:?
          | |- context [match json_result ?r with _ => _ end] =>
              destruct (json_result r) as [[? ?] | ?] eqn:?
          | |- context [if ?b then _ else _] => destruct b eqn:?
          | |- context [match ?v with PyDict _ => _ | _ => _ end] => destruct v
          end);
  simpl.

Ltac trace_posts := rewrite ?posts_app; simpl; rewrite ?app_nil_r.

Lemma status_error_false (r : Response) :
  ~ (400 <= status_code r < 600) ->
  (400 <=? status_code r) && (status_code r <? 500) = false
  /\ (500 <=? status_code r) && (status_code r <? 600) = false.
Proof.
  intros H. split; apply andb_false_iff;
    destruct (Z.leb_spec 400 (status_code r)), (Z.ltb_spec (status_code r) 500),
             (Z.leb_spec 500 (status_code r)), (Z.ltb_spec (status_code r) 600);
    auto; lia.
Qed.

Section Sending.
Context {W : Type} (env : Env W) (s : state W) (rk : pyvalue).
Hypothesis Hrk : routing_key_of s = Some rk.
Hypothesis Htruthy : truthy rk = true.

(** Up to the POST, [trigger_incident] only reads [self.routing_key]. *)
Lemma trigger_incident_to_post summary severity source custom_details dedup_key :
  run env (trigger_incident summary severity source custom_details dedup_key) s
  = run env
      (try_except
         (response <- lift_result
                        (fst (env_post env
                                (expected_post
                                   (trigger_body rk summary severity source
                                      (given custom_details) (given dedup_key)))
                                (world s))) ;;
          raise_for_status response ;;
          result <- json response ;;
          echoed <- py_get result (lit "dedup_key") ;;
          let incident_key := py_or echoed (of_opt_str dedup_key) in
          logger_info "PagerDuty incident triggered successfully: "
                      (FmtValue incident_key) ;;
          Ret incident_key)
         isinstance_RequestException
         (fun e =>
            log_request_failure "Failed to trigger PagerDuty incident: " e ;;
            Ret PyNone))
      (mkState
         (snd (env_post env
                 (expected_post
                    (trigger_body rk summary severity source
                       (given custom_details) (given dedup_key)))
                 (world s)))
         (self s)
         (trace s ++
          [OpGetAttr "routing_key"; OpGetAttr "routing_key";
           OpRequestsPost
             (expected_post
                (trigger_body rk summary severity source
                   (given custom_details) (given dedup_key)))])).
Proof.
  unfold routing_key_of in Hrk.
  unfold trigger_incident. simpl. rewrite Hrk. simpl. rewrite Htruthy. simpl.
  rewrite Hrk. simpl. rewrite trigger_request.
  destruct (env_post env _ (world s)) as [ans w']. simpl.
  rewrite <- !app_assoc. reflexivity.
Qed.

Lemma resolve_incident_to_post dedup_key summary :
  run env (resolve_incident dedup_key summary) s
  = run env
      (try_except
         (response <- lift_result
                        (fst (env_post env
                                (expected_post
                                   (resolve_body rk dedup_key (given summary)))
                                (world s))) ;;
          raise_for_status response ;;
          logger_info "PagerDuty incident resolved successfully: "
                      (FmtValue (PyStr dedup_key)) ;;
          Ret (PyBool true))
         isinstance_RequestException
         (fun e =>
            log_request_failure "Failed to resolve PagerDuty incident: " e ;;
            Ret (PyBool false)))
      (mkState
         (snd (env_post env
                 (expected_post (resolve_body rk dedup_key (given summary)))
                 (world s)))
         (self s)
         (trace s ++
          [OpGetAttr "routing_key"; OpGetAttr "routing_key";
           OpRequestsPost
             (expected_post (resolve_body rk dedup_key (given summary)))])).
Proof.
  unfold routing_key_of in Hrk.
  unfold resolve_incident. simpl. rewrite Hrk. simpl. rewrite Htruthy. simpl.
  rewrite Hrk. simpl. rewrite resolve_request.
  destruct (env_post env _ (world s)) as [ans w']. simpl.
  rewrite <- !app_assoc. reflexivity.
Qed.

(** Whatever the transport answers, exactly one POST is made, with
    the expected request. *)
Lemma trigger_incident_posts summary severity source custom_details dedup_key :
  posts (trace (snd (run env (trigger_incident summary severity source
                                               custom_details dedup_key) s)))
  = posts (trace s)
    ++ [expected_post (trigger_body rk summary severity source
                                    (given custom_details) (given dedup_key))].
Proof.
  rewrite trigger_incident_to_post.
  destruct (env_post env _ (world s)) as [[e | resp] w'].
  - run_cases; trace_posts; reflexivity.
  - unfold raise_for_status, json, py_get.
    run_cases; trace_posts; reflexivity.
Qed.

Lemma resolve_incident_posts dedup_key summary :
  posts (trace (snd (run env (resolve_incident dedup_key summary) s)))
  = posts (trace s)
    ++ [expected_post (resolve_body rk dedup_key (given summary))].
Proof.
  rewrite resolve_incident_to_post.
  destruct (env_post env _ (world s)) as [[e | resp] w'].
  - run_cases; trace_posts; reflexivity.
  - unfold raise_for_status.
    run_cases; trace_posts; reflexivity.
Qed.

(** The outcome of [trigger_incident] when the POST returns a
    response that [raise_for_status] accepts and whose body is a JSON
    object. *)
Lemma trigger_incident_success summary severity source custom_details dedup_key
      resp w' d :
  env_post env
    (expected_post (trigger_body rk summary severity source
                                 (given custom_details) (given dedup_key)))
    (world s) = (inr resp, w') ->
  ~ (400 <= status_code resp < 600) ->
  json_result resp = inr (PyDict d) ->
  fst (run env (trigger_incident summary severity source
                                 custom_details dedup_key) s)
  = Returned (py_or (default PyNone (dict_get d (lit "dedup_key")))
                    (of_opt_str dedup_key)).
Proof.
  intros Hpost Hstatus Hjson.
  rewrite trigger_incident_to_post, Hpost. simpl.
  destruct (status_error_false resp Hstatus) as [H4 H5].
  unfold raise_for_status, json. rewrite H4, H5, Hjson. reflexivity.
Qed.

(** ... and when the body is JSON but not an object: the call to
    [result.get] raises [AttributeError], which no clause catches. *)
Lemma trigger_incident_not_object summary severity source custom_details
      dedup_key resp w' v :
  env_post env
    (expected_post (trigger_body rk summary severity source
                                 (given custom_details) (given dedup_key)))
    (world s) = (inr resp, w') ->
  ~ (400 <= status_code resp < 600) ->
  json_result resp = inr v ->
  (forall d, v <> PyDict d) ->
  fst (run env (trigger_incident summary severity source
                                 custom_details dedup_key) s)
  = Raised (AttributeError "object has no attribute 'get'").
Proof.
  intros Hpost Hstatus Hjson Hv.
  rewrite trigger_incident_to_post, Hpost. simpl.
  destruct (status_error_false resp Hstatus) as [H4 H5].
  unfold raise_for_status, json. rewrite H4, H5, Hjson.
  destruct v; try reflexivity. exfalso. eapply Hv. reflexivity.
Qed.

(** The outcome of [resolve_incident], by what the POST does. *)
Lemma resolve_incident_outcome dedup_key summary ans w' :
  env_post env (expected_post (resolve_body rk dedup_key (given summary)))
           (world s) = (ans, w') ->
  fst (run env (resolve_incident dedup_key summary) s)
  = match ans with
    | inl e => if isinstance_RequestException e
               then Returned (PyBool false) else Raised e
    | inr resp =>
        if (400 <=? status_code resp) && (status_code resp <? 600)
        then Returned (PyBool false) else Returned (PyBool true)
    end.
Proof.
  intros Hpost. rewrite resolve_incident_to_post, Hpost.
  destruct ans as [e | resp].
  - run_cases; reflexivity.
  - simpl. unfold raise_for_status.
    destruct (Z.leb_spec 400 (status_code resp)),
             (Z.ltb_spec (status_code resp) 500),
             (Z.leb_spec 500 (status_code resp)),
             (Z.ltb_spec (status_code resp) 600);
      simpl; try reflexivity; lia.
Qed.

End Sending.

(* ===================================================================== *)
(** ** What is sent, and what comes back *)
(* ===================================================================== *)

(** C5.  On a client with a usable routing key, each call issues
    exactly one POST, whatever the transport then answers.  It goes to
    the fixed URL with the header [Content-Type: application/json] and
    a timeout of 10 seconds ([expected_post]); its body is
    [trigger_body], respectively [resolve_body]: the mandatory members,
    and each optional member when the argument counts as [given].  An
    optional member is added only when the argument was provided
    ([given o = Some x] needs [o = Some x]). *)
Theorem requests_are_as_documented :
  forall (W : Type) (env : Env W) (s : state W) (rk : pyvalue),
    routing_key_of s = Some rk ->
    truthy rk = true ->
    (forall summary severity source custom_details dedup_key,
        posts (trace (snd (run env (trigger_incident summary severity source
                                      custom_details dedup_key) s)))
        = posts (trace s)
          ++ [expected_post
                (trigger_body rk summary severity source
                              (given custom_details) (given dedup_key))])
    /\ (forall dedup_key summary,
           posts (trace (snd (run env (resolve_incident dedup_key summary) s)))
           = posts (trace s)
             ++ [expected_post (resolve_body rk dedup_key (given summary))])
    /\ (forall (custom_details : option dict) d,
           given custom_details = Some d -> custom_details = Some d)
    /\ (forall (o : option str) k, given o = Some k -> o = Some k).
Proof.
  intros W env s rk Hrk Htruthy. repeat split.
  - intros. apply trigger_incident_posts; assumption.
  - intros. apply resolve_incident_posts; assumption.
  - intros cd d H. apply given_Some in H. tauto.
  - intros o k H. apply given_Some in H. tauto.
Qed.

(** C5 on the call of the repository's first test: every optional
    argument given. *)
Lemma requests_are_as_documented_witness :
  routing_key_of (at_client tt test_client) = Some (PyStr test_routing_key)
  /\ truthy (PyStr test_routing_key) = true
  /\ posts (trace (snd (run
       (test_env (inl ConnectionError))
       (trigger_incident (lit "Test validation failure") (lit "error")
          (lit "test-source")
          (Some [(lit "error", PyStr (lit "Test error message"))])
          (Some (lit "test-dedup-key")))
       (at_client tt test_client))))
     = [expected_post
          (PyDict
             [ (lit "routing_key", PyStr (lit "test-routing-key-123"));
               (lit "event_action", PyStr (lit "trigger"));
               (lit "payload",
                PyDict
                  [ (lit "summary", PyStr (lit "Test validation failure"));
                    (lit "severity", PyStr (lit "error"));
                    (lit "source", PyStr (lit "test-source"));
                    (lit "custom_details",
                     PyDict [(lit "error", PyStr (lit "Test error message"))]) ]);
               (lit "dedup_key", PyStr (lit "test-dedup-key")) ])].
Proof.
  split; [reflexivity |]. split; [reflexivity |].
  exact (proj1 (requests_are_as_documented unit
                  (test_env (inl ConnectionError))
                  (at_client tt test_client) (PyStr test_routing_key)
                  eq_refl eq_refl)
               (lit "Test validation failure") (lit "error") (lit "test-source")
               (Some [(lit "error", PyStr (lit "Test error message"))])
               (Some (lit "test-dedup-key"))).
Defined.

(** C3 does not hold as worded: a [dedup_key] member that is present in
    the response but falsy is not returned.  Status 200, a body that
    is the JSON object whose [dedup_key] is the empty string, and the
    argument [test-dedup-key]: the member is present and empty, and the
    call returns the argument. *)
Lemma trigger_incident_skips_empty_echo :
  let resp := echo_response 200 EmptyString in
  200 <= status_code resp < 300
  /\ json_result resp = inr (PyDict [(lit "dedup_key", PyStr [])])
  /\ dict_get [(lit "dedup_key", PyStr [])] (lit "dedup_key") = Some (PyStr [])
  /\ fst (run (test_env (inr resp))
            (trigger_incident (lit "Test validation failure") (lit "error")
               (lit "mai-service") None (Some (lit "test-dedup-key")))
            (at_client tt test_client))
     = Returned (PyStr (lit "test-dedup-key"))
  /\ PyStr (lit "test-dedup-key") <> PyStr [].
Proof.
  cbv zeta. split; [simpl; lia |]. split; [reflexivity |].
  split; [reflexivity |].
  split; [vm_compute; reflexivity | discriminate].
Qed.

(** C3, amended.  On a client with a usable routing key, when the POST
    returns a 2xx response whose body parses to a JSON object,
    [trigger_incident] returns the [dedup_key] member of that object if
    it is present and truthy, and the [dedup_key] argument otherwise.
    So when the caller passed a [dedup_key], the result is not [None]. *)
Theorem trigger_incident_returns_echo_or_argument :
  forall (W : Type) (env : Env W) (s : state W) (rk : pyvalue)
         summary severity source custom_details dedup_key resp w' d,
    routing_key_of s = Some rk ->
    truthy rk = true ->
    env_post env
      (expected_post (trigger_body rk summary severity source
                                   (given custom_details) (given dedup_key)))
      (world s) = (inr resp, w') ->
    200 <= status_code resp < 300 ->
    json_result resp = inr (PyDict d) ->
    let result := fst (run env (trigger_incident summary severity source
                                                 custom_details dedup_key) s) in
    result = Returned (match dict_get d (lit "dedup_key") with
                       | Some v => if truthy v then v else of_opt_str dedup_key
                       | None => of_opt_str dedup_key
                       end)
    /\ (forall k, dedup_key = Some k -> result <> Returned PyNone).
Proof.
  intros W env s rk summary severity source cd dk resp w' d
         Hrk Htruthy Hpost Hstatus Hjson result.
  assert (Hres : result
                 = Returned (py_or (default PyNone (dict_get d (lit "dedup_key")))
                                   (of_opt_str dk))).
  { eapply trigger_incident_success; eauto. lia. }
  split.
  - rewrite Hres. unfold py_or.
    destruct (dict_get d (lit "dedup_key")) as [v |]; reflexivity.
  - intros k ->. rewrite Hres. unfold py_or.
    destruct (truthy (default PyNone (dict_get d (lit "dedup_key")))) eqn:Hv.
    + intros [= Heq]. rewrite Heq in Hv. discriminate.
    + discriminate.
Qed.

(** C3 (amended) on the response of the repository's tests. *)
Lemma trigger_incident_returns_echo_or_argument_witness :
  200 <= status_code (echo_response 200 "test-incident-key") < 300
  /\ fst (run (test_env (inr (echo_response 200 "test-incident-key")))
            (trigger_incident (lit "Test validation failure") (lit "critical")
               (lit "mai-service") None None)
            (at_client tt test_client))
     = Returned (PyStr (lit "test-incident-key")).
Proof.
  assert (Hst : 200 <= status_code (echo_response 200 "test-incident-key") < 300)
    by (simpl; lia).
  split; [exact Hst |].
  exact (proj1 (trigger_incident_returns_echo_or_argument unit
            (test_env (inr (echo_response 200 "test-incident-key")))
            (at_client tt test_client) (PyStr test_routing_key)
            (lit "Test validation failure") (lit "critical") (lit "mai-service")
            None None (echo_response 200 "test-incident-key") tt
            [(lit "dedup_key", PyStr (lit "test-incident-key"))]
            eq_refl eq_refl eq_refl Hst eq_refl)).
Defined.

(** C4 does not hold as worded: [raise_for_status] only rejects 4xx and
    5xx.  A response with status 304 is not 2xx, and
    [resolve_incident] returns [True] on it. *)
Lemma resolve_incident_true_on_304 :
  let resp := response_of 304 [] PyNone in
  ~ (200 <= status_code resp < 300)
  /\ fst (run (test_env (inr resp)) (resolve_incident (lit "test-dedup-key") (Some (lit "Resolved")))
              (at_client tt test_client))
     = Returned (PyBool true).
Proof.
  cbv zeta. split; [simpl; lia | vm_compute; reflexivity].
Qed.

(** C4, amended.  On a client with a usable routing key,
    [resolve_incident] returns [True] exactly when the POST returns a
    response whose status is not in 400..599, whatever its body; it
    returns [False] when the POST raises a [RequestException] and when
    the status is in 400..599. *)
Theorem resolve_incident_true_iff_accepted :
  forall (W : Type) (env : Env W) (s : state W) (rk : pyvalue)
         dedup_key summary ans w',
    routing_key_of s = Some rk ->
    truthy rk = true ->
    env_post env (expected_post (resolve_body rk dedup_key (given summary)))
             (world s) = (ans, w') ->
    let result := fst (run env (resolve_incident dedup_key summary) s) in
    (result = Returned (PyBool true)
     <-> exists resp, ans = inr resp /\ ~ (400 <= status_code resp < 600))
    /\ (forall e, ans = inl e -> isinstance_RequestException e = true ->
                  result = Returned (PyBool false))
    /\ (forall resp, ans = inr resp -> 400 <= status_code resp < 600 ->
                     result = Returned (PyBool false)).
Proof.
  intros W env s rk dk summary ans w' Hrk Htruthy Hpost result.
  assert (Hres := resolve_incident_outcome env s rk Hrk Htruthy dk summary ans w' Hpost).
  fold result in Hres. rewrite Hres. clear Hres result.
  repeat split.
  - destruct ans as [e | resp].
    + destruct (isinstance_RequestException e); discriminate.
    + intros H. exists resp. split; [reflexivity |].
      destruct (Z.leb_spec 400 (status_code resp)),
               (Z.ltb_spec (status_code resp) 600);
        simpl in H; try discriminate; lia.
  - intros [resp [-> Hst]].
    destruct (Z.leb_spec 400 (status_code resp)),
             (Z.ltb_spec (status_code resp) 600);
      simpl; try reflexivity; lia.
  - intros e -> He. rewrite He. reflexivity.
  - intros resp -> Hst.
    destruct (Z.leb_spec 400 (status_code resp)),
             (Z.ltb_spec (status_code resp) 600);
      simpl; try reflexivity; lia.
Qed.

(** C4 (amended) on the transport failure of the repository's tests. *)
Lemma resolve_incident_true_iff_accepted_witness :
  isinstance_RequestException ConnectionError = true
  /\ fst (run (test_env (inl ConnectionError))
              (resolve_incident (lit "test-dedup-key") (Some (lit "Resolved")))
              (at_client tt test_client))
     = Returned (PyBool false).
Proof.
  split; [reflexivity |].
  exact (proj1 (proj2 (resolve_incident_true_iff_accepted unit
                  (test_env (inl ConnectionError))
                  (at_client tt test_client) (PyStr test_routing_key)
                  (lit "test-dedup-key") (Some (lit "Resolved"))
                  (inl ConnectionError) tt eq_refl eq_refl eq_refl))
               ConnectionError eq_refl eq_refl).
Defined.

(** C1, on the input where the implementation breaks it.  The secret
    resolves to a routing key, the POST returns status 200, and the
    body is the JSON text [[]]: [response.json()] yields a list,
    [result.get] raises [AttributeError], the [except] clause only
    catches [RequestException], and the exception reaches the caller
    of [trigger_incident]. *)
Theorem trigger_incident_raises_on_json_array :
  let env := test_env (inr (response_of 200 (lit "[]") (PyList []))) in
  let built := construct env PagerDutyClient (lit "test-project") None tt in
  fst built = Returned tt
  /\ routing_key_of (snd built) = Some (PyStr (lit "test-routing-key-123"))
  /\ fst (run env
            (trigger_incident (lit "Test failure") (lit "error")
                              (lit "mai-service") None None)
            (snd built))
     = Raised (AttributeError "object has no attribute 'get'").
Proof.
  cbv zeta. repeat split; vm_compute; reflexivity.
Qed.

(* ===================================================================== *)
(** ** Construction *)
(* ===================================================================== *)

Arguments secret_path_of : simpl never.
Arguments strip : simpl never.
Arguments utf8_decode : simpl never.

(** Case analysis on what the secret manager answers to [__init__]. *)
Ltac init_cases env w :=
  let e := fresh "e" in
  let w1 := fresh "w1" in
  let w2 := fresh "w2" in
  let data := fresh "data" in
  unfold construct, __init__; simpl;
  destruct (env_secret_client env w) as [[e | []] w1]; simpl;
  [ destruct (isinstance_Exception e) eqn:?; simpl
  | destruct (env_access_secret env _ w1) as [[e | data] w2]; simpl;
    [ destruct (isinstance_Exception e) eqn:?; simpl
    | unfold decode_utf8; destruct (utf8_decode data) eqn:?; simpl ] ].

Section Construction.
Context {W : Type} (env : Env W).
Variables (cls : pyclass) (project : str) (rks : option str) (w : W).

Local Abbreviation path :=
  (secret_path_of project (str_or rks (ROUTING_KEY_SECRET cls))).
Local Abbreviation created := (env_secret_client env w).
Local Abbreviation fetched := (env_access_secret env path (snd created)).
Local Abbreviation built := (construct env cls project rks w).

(** The secret manager client is created once, and the secret is
    read once, at [path], if that succeeded. *)
Lemma construct_secret_reads :
  client_creations (trace (snd built)) = 1%nat
  /\ secret_reads (trace (snd built))
     = match fst created with inr _ => [path] | inl _ => [] end.
Proof.
  init_cases env w; split; reflexivity.
Qed.

Lemma construct_stores_secret data decoded :
  fst created = inr tt ->
  fst fetched = inr data ->
  utf8_decode data = Some decoded ->
  fst built = Returned tt
  /\ routing_key_of (snd built) = Some (PyStr (strip decoded)).
Proof.
  unfold routing_key_of.
  init_cases env w; intros Hc Hf Hd; try discriminate;
    injection Hf as ->; rewrite Hd in *; try discriminate.
  match goal with H : Some _ = Some _ |- _ => injection H as -> end.
  split; [reflexivity |]. simpl. apply lookup_insert_eq.
Qed.

Lemma construct_survives_failure e :
  isinstance_Exception e = true ->
  fst created = inl e \/ (fst created = inr tt /\ fst fetched = inl e) ->
  fst built = Returned tt /\ routing_key_of (snd built) = Some PyNone.
Proof.
  unfold routing_key_of.
  init_cases env w; intros He [Hc | [Hc Hf]]; try discriminate;
    try (injection Hc as ->); try (injection Hf as ->);
    try congruence;
    (split; [reflexivity | simpl; apply lookup_insert_eq]).
Qed.

Lemma construct_survives_bad_utf8 data :
  fst created = inr tt ->
  fst fetched = inr data ->
  utf8_decode data = None ->
  fst built = Returned tt /\ routing_key_of (snd built) = Some PyNone.
Proof.
  unfold routing_key_of.
  init_cases env w; intros Hc Hf Hd; try discriminate;
    injection Hf as ->; rewrite Hd in *; try discriminate.
  split; [reflexivity | simpl; apply lookup_insert_eq].
Qed.

(** What [__init__] assigns: [gcp_project], then [routing_key] once,
    unless an exception outside [Exception] escapes. *)
Lemma construct_writes :
  (exists v, attr_writes (trace (snd built))
             = [("gcp_project", PyStr project); ("routing_key", v)])
  \/ (attr_writes (trace (snd built)) = [("gcp_project", PyStr project)]
      /\ exists e, fst built = Raised e).
Proof.
  init_cases env w;
    first [ left; eexists; reflexivity
          | right; split; [reflexivity | eexists; reflexivity] ].
Qed.

End Construction.

(** C6 does not hold as worded: the secret manager client is created
    inside the same [try], before the secret is read.  When creating it
    fails, as in the repository's own test of a failed initialisation,
    construction completes with the routing key absent and no secret
    has been fetched at any address. *)
Lemma no_fetch_when_client_creation_fails :
  let env := fixed_env (inl boom) (inr (bytes_of "test-routing-key-123"))
                       (inl ConnectionError) in
  let built := construct env PagerDutyClient (lit "test-project") None tt in
  fst built = Returned tt
  /\ routing_key_of (snd built) = Some PyNone
  /\ secret_reads (trace (snd built)) = []
  /\ length (secret_reads (trace (snd built))) <> 1%nat.
Proof.
  cbv zeta. repeat split; try (vm_compute; reflexivity).
  vm_compute. discriminate.
Qed.

(** C6, amended.  Every construction creates the secret manager client
    exactly once and, when that succeeds, fetches the secret exactly
    once, at [projects/{project}/secrets/{secretName}/versions/latest];
    when it fails nothing is fetched.  If the fetch succeeds and the
    value is valid UTF-8, the stored routing key is the decoded value
    with surrounding whitespace stripped.  If creating the client or
    fetching the secret raises an [Exception], or the value is not
    valid UTF-8, the routing key is set to [None]; in all these cases
    construction returns normally. *)
Theorem routing_key_resolved_at_construction :
  forall (W : Type) (env : Env W) (cls : pyclass) (project : str)
         (rks : option str) (w : W),
    let path := lit "projects/" ++ project ++ lit "/secrets/"
                ++ str_or rks (ROUTING_KEY_SECRET cls)
                ++ lit "/versions/latest" in
    let created := env_secret_client env w in
    let fetched := env_access_secret env path (snd created) in
    let built := construct env cls project rks w in
    client_creations (trace (snd built)) = 1%nat
    /\ secret_reads (trace (snd built))
       = match fst created with inr _ => [path] | inl _ => [] end
    /\ (forall data decoded,
           fst created = inr tt -> fst fetched = inr data ->
           utf8_decode data = Some decoded ->
           fst built = Returned tt
           /\ routing_key_of (snd built) = Some (PyStr (strip decoded)))
    /\ (forall e,
           isinstance_Exception e = true ->
           fst created = inl e \/ (fst created = inr tt /\ fst fetched = inl e) ->
           fst built = Returned tt /\ routing_key_of (snd built) = Some PyNone)
    /\ (forall data,
           fst created = inr tt -> fst fetched = inr data ->
           utf8_decode data = None ->
           fst built = Returned tt /\ routing_key_of (snd built) = Some PyNone).
Proof.
  intros W env cls project rks w path created fetched built.
  split; [apply construct_secret_reads |].
  split; [apply construct_secret_reads |].
  split; [apply construct_stores_secret |].
  split; [apply construct_survives_failure | apply construct_survives_bad_utf8].
Qed.

(** C6 (amended) on a secret with surrounding whitespace. *)
Lemma routing_key_resolved_at_construction_witness :
  let env := fixed_env (inr tt) (inr (bytes_of "  test-routing-key-123 "))
                       (inl ConnectionError) in
  let built := construct env PagerDutyClient (lit "test-project") None tt in
  utf8_decode (bytes_of "  test-routing-key-123 ")
  = Some (lit "  test-routing-key-123 ")
  /\ fst built = Returned tt
  /\ routing_key_of (snd built)
     = Some (PyStr (strip (lit "  test-routing-key-123 "))).
Proof.
  cbv zeta. split; [vm_compute; reflexivity |].
  refine (proj1 (proj2 (proj2 (routing_key_resolved_at_construction unit
            (fixed_env (inr tt) (inr (bytes_of "  test-routing-key-123 "))
                       (inl ConnectionError))
            PagerDutyClient (lit "test-project") None tt)))
            (bytes_of "  test-routing-key-123 ")
            (lit "  test-routing-key-123 ") eq_refl eq_refl _).
  vm_compute; reflexivity.
Defined.

(** C10.  An empty string passed as [routing_key_secret] is falsy, so
    [__init__] is the same program as without the argument: the secret
    name is the class attribute, and every construction runs alike. *)
Theorem empty_override_uses_class_default :
  forall (cls : pyclass) (project : str),
    str_or (Some []) (ROUTING_KEY_SECRET cls) = ROUTING_KEY_SECRET cls
    /\ str_or None (ROUTING_KEY_SECRET cls) = ROUTING_KEY_SECRET cls
    /\ __init__ cls project (Some []) = __init__ cls project None
    /\ (forall (W : Type) (env : Env W) (w : W),
           construct env cls project (Some []) w
           = construct env cls project None w).
Proof.
  intros cls project. repeat split; reflexivity.
Qed.

(* ===================================================================== *)
(** ** What a run can depend on *)
(* ===================================================================== *)

Section Agreement.
Context {W : Type} (env : Env W).

(** An operation sees the world and the [__dict__] of the instance,
    and neither its class nor what was performed before. *)
Lemma perform_agree (o : op) (s s' : state W) :
  agree s s' ->
  fst (perform env o s) = fst (perform env o s')
  /\ agree (snd (perform env o s)) (snd (perform env o s')).
Proof.
  intros [Hw Hd]. unfold agree.
  destruct o; simpl; rewrite <- ?Hw, <- ?Hd.
  - destruct (env_secret_client env (world s)); simpl; auto.
  - destruct (env_access_secret env name (world s)); simpl; auto.
  - destruct (env_post env req (world s)); simpl; auto.
  - auto.
  - auto.
  - simpl. rewrite Hd. auto.
Qed.

(** So does a program: by induction on it, two runs from states that
    agree give the same outcome, perform the same operations, and end
    in states that agree. *)
Lemma run_agree {A} (p : prog A) (s s' : state W) :
  agree s s' ->
  fst (run env p s) = fst (run env p s')
  /\ agree (snd (run env p s)) (snd (run env p s'))
  /\ exists tr, trace (snd (run env p s)) = trace s ++ tr
                /\ trace (snd (run env p s')) = trace s' ++ tr.
Proof.
  revert s s'. induction p as [a | e | o k IH]; intros s s' Hag; simpl.
  - repeat split; try apply Hag. exists []. by rewrite !app_nil_r.
  - repeat split; try apply Hag. exists []. by rewrite !app_nil_r.
  - destruct (perform_agree o s s' Hag) as [Hr Hag'].
    pose proof (perform_trace env o s) as Ht.
    pose proof (perform_trace env o s') as Ht'.
    destruct (perform env o s) as [r s1], (perform env o s') as [r' s1'].
    simpl in *. subst r'.
    destruct (IH r s1 s1' Hag') as (Ho & Hag'' & tr & Htr & Htr').
    split; [exact Ho |]. split; [exact Hag'' |].
    exists (o :: tr). rewrite Htr, Htr', Ht, Ht', <- !app_assoc. done.
Qed.

(** The calls of a sequence leave the instance as it was. *)
Lemma run_calls_self (cs : list call) (s : state W) :
  self (snd (run_calls env cs s)) = self s.
Proof.
  revert s. induction cs as [| c cs IH]; intros s; simpl; [reflexivity |].
  assert (Hc : self (snd (run env (call_prog c) s)) = self s).
  { apply read_only_self. destruct c; simpl;
      [apply read_only_trigger_incident | apply read_only_resolve_incident]. }
  destruct (run env (call_prog c) s) as [o s1]. simpl in Hc.
  specialize (IH s1). destruct (run_calls env cs s1) as [os s2].
  simpl in *. congruence.
Qed.

Lemma run_calls_writes (cs : list call) (s : state W) :
  attr_writes (trace (snd (run_calls env cs s))) = attr_writes (trace s).
Proof.
  revert s. induction cs as [| c cs IH]; intros s; simpl; [reflexivity |].
  assert (Hc : attr_writes (trace (snd (run env (call_prog c) s)))
               = attr_writes (trace s)).
  { apply read_only_writes. destruct c; simpl;
      [apply read_only_trigger_incident | apply read_only_resolve_incident]. }
  destruct (run env (call_prog c) s) as [o s1]. simpl in Hc.
  specialize (IH s1). destruct (run_calls env cs s1) as [os s2].
  simpl in *. congruence.
Qed.

Lemma run_calls_length (cs : list call) (s : state W) :
  length (fst (run_calls env cs s)) = length cs.
Proof.
  revert s. induction cs as [| c cs IH]; intros s; simpl; [reflexivity |].
  destruct (run env (call_prog c) s) as [o s1].
  specialize (IH s1). destruct (run_calls env cs s1) as [os s2].
  simpl in *. congruence.
Qed.

End Agreement.

Lemma secret_paths_differ (project a b : str) :
  a <> b -> secret_path_of project a <> secret_path_of project b.
Proof.
  unfold secret_path_of. intros Hab Heq.
  apply app_inv_head in Heq. apply app_inv_head in Heq.
  apply app_inv_head in Heq. apply app_inv_tail in Heq. contradiction.
Qed.

(** C7.  [PagerDutyAlertClient(gcp_project)] reads its secret at the
    address built from [PAGERDUTY_VALIDATION_ALERTS_ROUTING_KEY], which
    is not the address the base class would use.  Nothing else
    distinguishes the subclass: without an override its [__init__] is
    that of the base class given this name as override, with a
    non-empty override the two [__init__] are the same program, and a
    call on an instance does not depend on the class of the instance
    (two states that differ only in it give the same outcome, perform
    the same operations and end with the same attributes). *)
Theorem alert_client_uses_own_secret :
  forall (W : Type) (env : Env W) (project : str) (w : W),
    let alert_path :=
      lit "projects/" ++ project ++ lit "/secrets/"
      ++ lit "PAGERDUTY_VALIDATION_ALERTS_ROUTING_KEY" ++ lit "/versions/latest" in
    let base_path :=
      lit "projects/" ++ project ++ lit "/secrets/"
      ++ lit "PAGERDUTY_ROUTING_KEY" ++ lit "/versions/latest" in
    secret_reads (trace (snd (construct env PagerDutyAlertClient project None w)))
    = match fst (env_secret_client env w) with
      | inr _ => [alert_path]
      | inl _ => []
      end
    /\ secret_reads (trace (snd (construct env PagerDutyClient project None w)))
       = match fst (env_secret_client env w) with
         | inr _ => [base_path]
         | inl _ => []
         end
    /\ alert_path <> base_path
    /\ __init__ PagerDutyAlertClient project None
       = __init__ PagerDutyClient project
                  (Some (lit "PAGERDUTY_VALIDATION_ALERTS_ROUTING_KEY"))
    /\ (forall c k, __init__ PagerDutyAlertClient project (Some (c :: k))
                    = __init__ PagerDutyClient project (Some (c :: k)))
    /\ (forall (c : call) (tr : list op) (d : gmap string pyvalue),
           let on_alert := run env (call_prog c)
                               (mkState w (mkObject PagerDutyAlertClient d) tr) in
           let on_base := run env (call_prog c)
                              (mkState w (mkObject PagerDutyClient d) tr) in
           fst on_alert = fst on_base
           /\ world (snd on_alert) = world (snd on_base)
           /\ ob_dict (self (snd on_alert)) = ob_dict (self (snd on_base))
           /\ trace (snd on_alert) = trace (snd on_base)).
Proof.
  intros W env project w alert_path base_path.
  split; [apply (construct_secret_reads env PagerDutyAlertClient project None w) |].
  split; [apply (construct_secret_reads env PagerDutyClient project None w) |].
  split; [apply secret_paths_differ; vm_compute; discriminate |].
  split; [reflexivity |]. split; [reflexivity |].
  intros c tr d on_alert on_base.
  destruct (run_agree env (call_prog c)
              (mkState w (mkObject PagerDutyAlertClient d) tr)
              (mkState w (mkObject PagerDutyClient d) tr))
    as (Ho & [Hw Hd] & tr' & Ht & Ht'); [split; reflexivity |].
  subst on_alert on_base. rewrite Ht, Ht'. auto.
Qed.

(** C9.  When the secret is fetched and decodes to a string that is
    empty once stripped, construction returns with the empty string as
    routing key.  On that instance, in any world and after any
    history, [trigger_incident] returns [None] and [resolve_incident]
    returns [False], having only read the attribute and logged one
    error: no POST is made and the world is untouched, exactly as on
    an instance whose routing key is [None]. *)
Theorem empty_secret_behaves_as_absent :
  forall (W : Type) (env : Env W) (cls : pyclass) (project : str)
         (rks : option str) (w : W) (data : bytes) (decoded : str),
    let path := secret_path_of project (str_or rks (ROUTING_KEY_SECRET cls)) in
    let created := env_secret_client env w in
    let built := construct env cls project rks w in
    fst created = inr tt ->
    fst (env_access_secret env path (snd created)) = inr data ->
    utf8_decode data = Some decoded ->
    strip decoded = [] ->
    fst built = Returned tt
    /\ routing_key_of (snd built) = Some (PyStr [])
    /\ (forall (s : state W),
           self s = self (snd built) ->
           (forall summary severity source custom_details dedup_key,
               let r := run env (trigger_incident summary severity source
                                                  custom_details dedup_key) s in
               fst r = Returned PyNone
               /\ posts (trace (snd r)) = posts (trace s)
               /\ world (snd r) = world s
               /\ trace (snd r)
                  = trace s ++
                    [OpGetAttr "routing_key";
                     OpLog ERROR
                       "PagerDuty routing key not available, cannot trigger incident"
                       FmtNothing])
           /\ (forall dedup_key summary,
                  let r := run env (resolve_incident dedup_key summary) s in
                  fst r = Returned (PyBool false)
                  /\ posts (trace (snd r)) = posts (trace s)
                  /\ world (snd r) = world s
                  /\ trace (snd r)
                     = trace s ++
                       [OpGetAttr "routing_key";
                        OpLog ERROR
                          "PagerDuty routing key not available, cannot resolve incident"
                          FmtNothing])).
Proof.
  intros W env cls project rks w data decoded path created built
         Hc Hf Hd Hstrip.
  destruct (construct_stores_secret env cls project rks w data decoded Hc Hf Hd)
    as [Hret Hkey].
  fold built in Hret, Hkey. rewrite Hstrip in Hkey.
  split; [exact Hret |]. split; [exact Hkey |].
  intros s Hself.
  assert (Hrk : routing_key_of s = Some (PyStr [])).
  { unfold routing_key_of in *. rewrite Hself. exact Hkey. }
  split; intros; subst r.
  - rewrite (trigger_incident_short_circuit env s (PyStr [])) by done.
    simpl. rewrite posts_app. simpl. rewrite app_nil_r. done.
  - rewrite (resolve_incident_short_circuit env s (PyStr [])) by done.
    simpl. rewrite posts_app. simpl. rewrite app_nil_r. done.
Qed.

(** C9 on a secret made of blanks and a newline, in an environment
    that would accept every POST. *)
Lemma empty_secret_behaves_as_absent_witness :
  let env := fixed_env (inr tt) (inr (bytes_of "   "))
                       (inr (echo_response 202 "test-incident-key")) in
  let built := construct env PagerDutyClient (lit "test-project") None tt in
  utf8_decode (bytes_of "   ") = Some (lit "   ")
  /\ strip (lit "   ") = []
  /\ fst built = Returned tt
  /\ routing_key_of (snd built) = Some (PyStr []).
Proof.
  cbv zeta.
  assert (Hd : utf8_decode (bytes_of "   ") = Some (lit "   "))
    by (vm_compute; reflexivity).
  assert (Hs : strip (lit "   ") = []) by (vm_compute; reflexivity).
  split; [exact Hd |]. split; [exact Hs |].
  pose proof (empty_secret_behaves_as_absent unit
                (fixed_env (inr tt) (inr (bytes_of "   "))
                           (inr (echo_response 202 "test-incident-key")))
                PagerDutyClient (lit "test-project") None tt
                (bytes_of "   ") (lit "   ") eq_refl eq_refl Hd Hs) as H.
  split; [exact (proj1 H) | exact (proj1 (proj2 H))].
Defined.

(** C8.  Whatever calls are made on a client, with whatever arguments
    and whatever the transport answers, the instance after them is the
    instance before them (its class and all its attributes, so
    [routing_key] and [gcp_project]), and no attribute was assigned on
    the way.  Each call therefore behaves as it would on the client as
    constructed, in the world as it is when the call is made.  The
    only assignments are those of [__init__]: [gcp_project], then
    [routing_key] once. *)
Theorem calls_leave_client_unchanged :
  forall (W : Type) (env : Env W) (cs : list call) (s : state W),
    let after := run_calls env cs s in
    self (snd after) = self s
    /\ ob_dict (self (snd after)) !! "routing_key" = ob_dict (self s) !! "routing_key"
    /\ ob_dict (self (snd after)) !! "gcp_project" = ob_dict (self s) !! "gcp_project"
    /\ attr_writes (trace (snd after)) = attr_writes (trace s)
    /\ length (fst after) = length cs
    /\ (forall c : call,
           fst (run env (call_prog c) (snd after))
           = fst (run env (call_prog c) (mkState (world (snd after)) (self s) [])))
    /\ (forall cls project rks w,
           let built := construct env cls project rks w in
           (exists v, attr_writes (trace (snd built))
                      = [("gcp_project", PyStr project); ("routing_key", v)])
           \/ (attr_writes (trace (snd built)) = [("gcp_project", PyStr project)]
               /\ exists e, fst built = Raised e)).
Proof.
  intros W env cs s after.
  assert (Hself : self (snd after) = self s) by apply run_calls_self.
  split; [exact Hself |].
  split; [by rewrite Hself |]. split; [by rewrite Hself |].
  split; [apply run_calls_writes |].
  split; [apply run_calls_length |].
  split.
  - intros c. apply run_agree. split; simpl; [reflexivity | by rewrite Hself].
  - intros. apply construct_writes.
Qed.

(* ===================================================================== *)
(** ** The model on the repository's tests, and on the library functions *)
(* ===================================================================== *)

Example utf8_decode_samples :
  utf8_decode (bytes_of "key") = Some (lit "key")
  /\ utf8_decode [xc3; xa9]%byte = Some [233%N]
  /\ utf8_decode [xe2; x82; xac]%byte = Some [8364%N]
  /\ utf8_decode [xf0; x9f; x98; x80]%byte = Some [128512%N]
  /\ utf8_decode [xc0; x80]%byte = None
  /\ utf8_decode [xed; xa0; x80]%byte = None
  /\ utf8_decode [xff]%byte = None
  /\ utf8_decode [xe2; x82]%byte = None.
Proof. repeat split; vm_compute; reflexivity. Qed.

Example strip_samples :
  strip (lit "  a b ") = lit "a b"
  /\ strip ([9; 10; 13; 32; 160; 8195; 12288] ++ lit "k" ++ [8232; 133])%N = lit "k"
  /\ strip (lit "   ") = []
  /\ strip [] = [].
Proof. repeat split; vm_compute; reflexivity. Qed.

(** [test_pagerduty_client_trigger_incident] *)
Example test_trigger_incident :
  let env := test_env (inr (echo_response 200 "test-incident-key")) in
  let built := construct env PagerDutyClient (lit "test-project")
                         (Some (lit "TEST_ROUTING_KEY")) tt in
  let called := run env
                    (trigger_incident (lit "Test validation failure") (lit "error")
                       (lit "test-source")
                       (Some [(lit "error", PyStr (lit "Test error message"))])
                       (Some (lit "test-dedup-key")))
                    (snd built) in
  secret_reads (trace (snd built))
  = [lit "projects/test-project/secrets/TEST_ROUTING_KEY/versions/latest"]
  /\ fst called = Returned (PyStr (lit "test-incident-key"))
  /\ length (posts (trace (snd called))) = 1%nat.
Proof. cbv zeta. repeat split; vm_compute; reflexivity. Qed.

(** [test_pagerduty_alert_client_trigger_incident] *)
Example test_alert_client :
  let env := test_env (inr (echo_response 200 "test-incident-key")) in
  let built := construct env PagerDutyAlertClient (lit "test-project") None tt in
  secret_reads (trace (snd built))
  = [lit "projects/test-project/secrets/PAGERDUTY_VALIDATION_ALERTS_ROUTING_KEY/versions/latest"]
  /\ fst (run env (trigger_incident (lit "Test validation failure")
                     (lit "critical") (lit "mai-service") None None)
              (snd built))
     = Returned (PyStr (lit "test-incident-key")).
Proof. cbv zeta. repeat split; vm_compute; reflexivity. Qed.

(** [test_pagerduty_client_init_failure_sets_routing_key_none] *)
Example test_init_failure :
  let env := fixed_env (inl boom) (inl boom) (inl ConnectionError) in
  let built := construct env PagerDutyClient (lit "test-project") None tt in
  routing_key_of (snd built) = Some PyNone
  /\ fst (run env (trigger_incident (lit "test") (lit "error")
                     (lit "mai-service") None None) (snd built))
     = Returned PyNone
  /\ fst (run env (resolve_incident (lit "test") None) (snd built))
     = Returned (PyBool false).
Proof. cbv zeta. repeat split; vm_compute; reflexivity. Qed.

(** [test_pagerduty_client_trigger_incident_request_exception] *)
Example test_request_exception :
  let env := test_env (inl ConnectionError) in
  let built := construct env PagerDutyClient (lit "test-project") None tt in
  fst (run env (trigger_incident (lit "Test failure") (lit "error")
                  (lit "mai-service") None None) (snd built))
  = Returned PyNone.
Proof. vm_compute; reflexivity. Qed.

(** Two calls of [resolve_incident] with the same key are two requests:
    here the first meets a 503 and the second a 202. *)
Example resolve_twice :
  let env := scripted_env (inr tt) (inr (bytes_of "test-routing-key-123")) in
  let after :=
    run_calls env
      [CallResolve (lit "test-dedup-key") None;
       CallResolve (lit "test-dedup-key") None]
      (mkState [inr (response_of 503 [] PyNone);
                inr (response_of 202 (lit "{}") (PyDict []))]
               test_client []) in
  fst after = [Returned (PyBool false); Returned (PyBool true)]
  /\ posts (trace (snd after))
     = [expected_post (resolve_body (PyStr test_routing_key)
                                    (lit "test-dedup-key") None);
        expected_post (resolve_body (PyStr test_routing_key)
                                    (lit "test-dedup-key") None)]
  /\ self (snd after) = test_client.
Proof. cbv zeta. repeat split; vm_compute; reflexivity. Qed.

(* ===================================================================== *)
(** ** Further properties: outcomes and log records of a call *)
(* ===================================================================== *)

Lemma logs_app (a b : list op) : logs (a ++ b) = logs a ++ logs b.
Proof.
  induction a as [| o a IH]; simpl; [reflexivity |].
  destruct o; simpl; rewrite IH; reflexivity.
Qed.

Ltac trace_logs :=
  rewrite ?logs_app; simpl; rewrite ?app_nil_r, <- ?app_assoc; simpl.

Lemma status_error_cases (r : Response) :
  400 <= status_code r < 600 ->
  ((400 <=? status_code r) && (status_code r <? 500) = true
   /\ 400 <= status_code r < 500)
  \/ ((400 <=? status_code r) && (status_code r <? 500) = false
      /\ (500 <=? status_code r) && (status_code r <? 600) = true
      /\ 500 <= status_code r < 600).
Proof.
  intros H.
  destruct (Z.leb_spec 400 (status_code r)), (Z.ltb_spec (status_code r) 500),
           (Z.leb_spec 500 (status_code r)), (Z.ltb_spec (status_code r) 600);
    simpl; first [left; split; [reflexivity | lia]
                 | right; repeat split; try reflexivity; lia
                 | lia].
Qed.

Section Outcomes.
Context {W : Type} (env : Env W) (s : state W) (rk : pyvalue).
Hypothesis Hrk : routing_key_of s = Some rk.
Hypothesis Htruthy : truthy rk = true.

(** The run of [trigger_incident] once the POST has raised [e]. *)
Lemma trigger_incident_after_raise summary severity source custom_details
      dedup_key e w' :
  env_post env
    (expected_post (trigger_body rk summary severity source
                                 (given custom_details) (given dedup_key)))
    (world s) = (inl e, w') ->
  let r := run env (trigger_incident summary severity source
                                     custom_details dedup_key) s in
  (isinstance_RequestException e = true ->
   fst r = Returned PyNone
   /\ logs (trace (snd r))
      = logs (trace s)
        ++ (ERROR, "Failed to trigger PagerDuty incident: "%string, FmtExn e)
           :: match exc_response e with
              | Some resp => [(ERROR, "Response: "%string,
                               FmtValue (PyStr (text resp)))]
              | None => []
              end)
  /\ (isinstance_RequestException e = false ->
      fst r = Raised e /\ logs (trace (snd r)) = logs (trace s)).
Proof.
  intros Hpost. cbv zeta. rewrite (trigger_incident_to_post env s rk Hrk Htruthy).
  rewrite Hpost. simpl.
  split; intros He; rewrite He; simpl.
  - destruct (exc_response e); simpl; trace_logs; split; reflexivity.
  - trace_logs. split; reflexivity.
Qed.

Lemma resolve_incident_after_raise dedup_key summary e w' :
  env_post env (expected_post (resolve_body rk dedup_key (given summary)))
           (world s) = (inl e, w') ->
  let r := run env (resolve_incident dedup_key summary) s in
  (isinstance_RequestException e = true ->
   fst r = Returned (PyBool false)
   /\ logs (trace (snd r))
      = logs (trace s)
        ++ (ERROR, "Failed to resolve PagerDuty incident: "%string, FmtExn e)
           :: match exc_response e with
              | Some resp => [(ERROR, "Response: "%string,
                               FmtValue (PyStr (text resp)))]
              | None => []
              end)
  /\ (isinstance_RequestException e = false ->
      fst r = Raised e /\ logs (trace (snd r)) = logs (trace s)).
Proof.
  intros Hpost. cbv zeta. rewrite (resolve_incident_to_post env s rk Hrk Htruthy).
  rewrite Hpost. simpl.
  split; intros He; rewrite He; simpl.
  - destruct (exc_response e); simpl; trace_logs; split; reflexivity.
  - trace_logs. split; reflexivity.
Qed.

(** The run of the two methods once the POST has returned a response
    with an error status. *)
Lemma trigger_incident_after_error_status summary severity source
      custom_details dedup_key resp w' :
  env_post env
    (expected_post (trigger_body rk summary severity source
                                 (given custom_details) (given dedup_key)))
    (world s) = (inr resp, w') ->
  400 <= status_code resp < 600 ->
  let r := run env (trigger_incident summary severity source
                                     custom_details dedup_key) s in
  fst r = Returned PyNone
  /\ logs (trace (snd r))
     = logs (trace s)
       ++ [(ERROR, "Failed to trigger PagerDuty incident: "%string,
            FmtExn (HTTPError (if status_code resp <? 500
                               then " Client Error: " else " Server Error: ")
                              resp));
           (ERROR, "Response: "%string, FmtValue (PyStr (text resp)))].
Proof.
  intros Hpost Hst. cbv zeta. rewrite (trigger_incident_to_post env s rk Hrk Htruthy).
  rewrite Hpost. simpl. unfold raise_for_status.
  destruct (status_error_cases resp Hst) as [[H4 Hr] | (H4 & H5 & Hr)].
  - rewrite H4. simpl. trace_logs.
    destruct (Z.ltb_spec (status_code resp) 500); [| lia]. split; reflexivity.
  - rewrite H4, H5. simpl. trace_logs.
    destruct (Z.ltb_spec (status_code resp) 500); [lia |]. split; reflexivity.
Qed.

Lemma resolve_incident_after_error_status dedup_key summary resp w' :
  env_post env (expected_post (resolve_body rk dedup_key (given summary)))
           (world s) = (inr resp, w') ->
  400 <= status_code resp < 600 ->
  let r := run env (resolve_incident dedup_key summary) s in
  fst r = Returned (PyBool false)
  /\ logs (trace (snd r))
     = logs (trace s)
       ++ [(ERROR, "Failed to resolve PagerDuty incident: "%string,
            FmtExn (HTTPError (if status_code resp <? 500
                               then " Client Error: " else " Server Error: ")
                              resp));
           (ERROR, "Response: "%string, FmtValue (PyStr (text resp)))].
Proof.
  intros Hpost Hst. cbv zeta. rewrite (resolve_incident_to_post env s rk Hrk Htruthy).
  rewrite Hpost. simpl. unfold raise_for_status.
  destruct (status_error_cases resp Hst) as [[H4 Hr] | (H4 & H5 & Hr)].
  - rewrite H4. simpl. trace_logs.
    destruct (Z.ltb_spec (status_code resp) 500); [| lia]. split; reflexivity.
  - rewrite H4, H5. simpl. trace_logs.
    destruct (Z.ltb_spec (status_code resp) 500); [lia |]. split; reflexivity.
Qed.

(** The run of [trigger_incident] once the POST has returned a
    response with another status: it depends on [response.json()]. *)
Lemma trigger_incident_after_accepted summary severity source
      custom_details dedup_key resp w' :
  env_post env
    (expected_post (trigger_body rk summary severity source
                                 (given custom_details) (given dedup_key)))
    (world s) = (inr resp, w') ->
  ~ (400 <= status_code resp < 600) ->
  let r := run env (trigger_incident summary severity source
                                     custom_details dedup_key) s in
  match json_result resp with
  | inl (c, msg) =>
      if isinstance_RequestException_class c
      then fst r = Returned PyNone
           /\ logs (trace (snd r))
              = logs (trace s)
                ++ [(ERROR, "Failed to trigger PagerDuty incident: "%string,
                     FmtExn (mkExn c msg None))]
      else fst r = Raised (mkExn c msg None)
           /\ logs (trace (snd r)) = logs (trace s)
  | inr (PyDict d) =>
      let key := py_or (default PyNone (dict_get d (lit "dedup_key")))
                       (of_opt_str dedup_key) in
      fst r = Returned key
      /\ logs (trace (snd r))
         = logs (trace s)
           ++ [(INFO, "PagerDuty incident triggered successfully: "%string,
                FmtValue key)]
  | inr _ =>
      fst r = Raised (AttributeError "object has no attribute 'get'")
      /\ logs (trace (snd r)) = logs (trace s)
  end.
Proof.
  intros Hpost Hst. cbv zeta. rewrite (trigger_incident_to_post env s rk Hrk Htruthy).
  rewrite Hpost. simpl. unfold raise_for_status, json.
  destruct (status_error_false resp Hst) as [H4 H5]. rewrite H4, H5. simpl.
  destruct (json_result resp) as [[c msg] | v]; simpl.
  - unfold isinstance_RequestException. simpl.
    destruct (isinstance_RequestException_class c); simpl; trace_logs;
      split; reflexivity.
  - destruct v; simpl; trace_logs; split; reflexivity.
Qed.

Lemma resolve_incident_after_accepted dedup_key summary resp w' :
  env_post env (expected_post (resolve_body rk dedup_key (given summary)))
           (world s) = (inr resp, w') ->
  ~ (400 <= status_code resp < 600) ->
  let r := run env (resolve_incident dedup_key summary) s in
  fst r = Returned (PyBool true)
  /\ logs (trace (snd r))
     = logs (trace s)
       ++ [(INFO, "PagerDuty incident resolved successfully: "%string,
            FmtValue (PyStr dedup_key))].
Proof.
  intros Hpost Hst. cbv zeta. rewrite (resolve_incident_to_post env s rk Hrk Htruthy).
  rewrite Hpost. simpl. unfold raise_for_status.
  destruct (status_error_false resp Hst) as [H4 H5]. rewrite H4, H5. simpl.
  trace_logs. split; reflexivity.
Qed.

End Outcomes.

(** X1.  On a client with a usable routing key, [trigger_incident]
    returns [None] in each of the failures its [except] clause covers:
    the POST raises a [RequestException]; the response has a status in
    400..599; the status is accepted but [response.json()] raises a
    [RequestException]. *)
Theorem trigger_incident_gives_up_on_failure :
  forall (W : Type) (env : Env W) (s : state W) (rk : pyvalue)
         summary severity source custom_details dedup_key ans w',
    routing_key_of s = Some rk ->
    truthy rk = true ->
    env_post env
      (expected_post (trigger_body rk summary severity source
                                   (given custom_details) (given dedup_key)))
      (world s) = (ans, w') ->
    let result := fst (run env (trigger_incident summary severity source
                                                 custom_details dedup_key) s) in
    (forall e, ans = inl e -> isinstance_RequestException e = true ->
               result = Returned PyNone)
    /\ (forall resp, ans = inr resp -> 400 <= status_code resp < 600 ->
                     result = Returned PyNone)
    /\ (forall resp c msg,
           ans = inr resp -> ~ (400 <= status_code resp < 600) ->
           json_result resp = inl (c, msg) ->
           isinstance_RequestException_class c = true ->
           result = Returned PyNone).
Proof.
  intros W env s rk summary severity source cd dk ans w' Hrk Htruthy Hpost result.
  subst result. repeat split.
  - intros e -> He.
    apply (trigger_incident_after_raise env s rk Hrk Htruthy _ _ _ _ _ e w' Hpost).
    exact He.
  - intros resp -> Hst.
    apply (trigger_incident_after_error_status env s rk Hrk Htruthy
             _ _ _ _ _ resp w' Hpost Hst).
  - intros resp c msg -> Hst Hjson Hc.
    pose proof (trigger_incident_after_accepted env s rk Hrk Htruthy
                  _ _ _ _ _ resp w' Hpost Hst) as H.
    cbv zeta in H. rewrite Hjson, Hc in H. apply H.
Qed.

(** X1 on the transport failure of the repository's tests. *)
Lemma trigger_incident_gives_up_on_failure_witness :
  routing_key_of (at_client tt test_client) = Some (PyStr test_routing_key)
  /\ truthy (PyStr test_routing_key) = true
  /\ isinstance_RequestException ConnectionError = true
  /\ fst (run (test_env (inl ConnectionError))
              (trigger_incident (lit "Test failure") (lit "error")
                                (lit "mai-service") None None)
              (at_client tt test_client))
     = Returned PyNone.
Proof.
  split; [reflexivity |]. split; [reflexivity |]. split; [reflexivity |].
  exact (proj1 (trigger_incident_gives_up_on_failure unit
                  (test_env (inl ConnectionError)) (at_client tt test_client)
                  (PyStr test_routing_key)
                  (lit "Test failure") (lit "error") (lit "mai-service")
                  None None (inl ConnectionError) tt eq_refl eq_refl eq_refl)
               ConnectionError eq_refl eq_refl).
Defined.

(** X2.  What the [except] clauses do not cover reaches the caller
    unchanged and unlogged: an exception of [requests.post] that is not
    a [RequestException], from either method, and an exception of
    [response.json()] that is not one, from [trigger_incident]. *)
Theorem foreign_exceptions_reach_the_caller :
  forall (W : Type) (env : Env W) (s : state W) (rk : pyvalue),
    routing_key_of s = Some rk ->
    truthy rk = true ->
    (forall summary severity source custom_details dedup_key e w',
        env_post env
          (expected_post (trigger_body rk summary severity source
                                       (given custom_details) (given dedup_key)))
          (world s) = (inl e, w') ->
        isinstance_RequestException e = false ->
        let r := run env (trigger_incident summary severity source
                                           custom_details dedup_key) s in
        fst r = Raised e /\ logs (trace (snd r)) = logs (trace s))
    /\ (forall dedup_key summary e w',
           env_post env (expected_post (resolve_body rk dedup_key (given summary)))
                    (world s) = (inl e, w') ->
           isinstance_RequestException e = false ->
           let r := run env (resolve_incident dedup_key summary) s in
           fst r = Raised e /\ logs (trace (snd r)) = logs (trace s))
    /\ (forall summary severity source custom_details dedup_key resp w' c msg,
           env_post env
             (expected_post (trigger_body rk summary severity source
                                          (given custom_details) (given dedup_key)))
             (world s) = (inr resp, w') ->
           ~ (400 <= status_code resp < 600) ->
           json_result resp = inl (c, msg) ->
           isinstance_RequestException_class c = false ->
           let r := run env (trigger_incident summary severity source
                                              custom_details dedup_key) s in
           fst r = Raised (mkExn c msg None)
           /\ logs (trace (snd r)) = logs (trace s)).
Proof.
  intros W env s rk Hrk Htruthy. repeat split.
  - apply (trigger_incident_after_raise env s rk Hrk Htruthy
             _ _ _ _ _ e w' H). exact H0.
  - apply (trigger_incident_after_raise env s rk Hrk Htruthy
             _ _ _ _ _ e w' H). exact H0.
  - apply (resolve_incident_after_raise env s rk Hrk Htruthy _ _ e w' H).
    exact H0.
  - apply (resolve_incident_after_raise env s rk Hrk Htruthy _ _ e w' H).
    exact H0.
  - pose proof (trigger_incident_after_accepted env s rk Hrk Htruthy
                  _ _ _ _ _ resp w' H H0) as Hacc.
    cbv zeta in Hacc. rewrite H1, H2 in Hacc. apply Hacc.
  - pose proof (trigger_incident_after_accepted env s rk Hrk Htruthy
                  _ _ _ _ _ resp w' H H0) as Hacc.
    cbv zeta in Hacc. rewrite H1, H2 in Hacc. apply Hacc.
Qed.

(** X2 on a payload the transport cannot serialise. *)
Lemma foreign_exceptions_reach_the_caller_witness :
  isinstance_RequestException TypeError = false
  /\ fst (run (test_env (inl TypeError))
              (resolve_incident (lit "test-dedup-key") None)
              (at_client tt test_client))
     = Raised TypeError.
Proof.
  split; [reflexivity |].
  exact (proj1 (proj1 (proj2 (foreign_exceptions_reach_the_caller unit
                  (test_env (inl TypeError)) (at_client tt test_client)
                  (PyStr test_routing_key) eq_refl eq_refl))
               (lit "test-dedup-key") None TypeError tt eq_refl eq_refl)).
Defined.

(** X3.  When the POST is accepted and the body parses to JSON that is
    not an object (a list, a string, a number, a boolean, null),
    [trigger_incident] raises [AttributeError], which is not a
    [RequestException]; nothing is logged, and the event has been sent:
    the one POST of the call is in the trace. *)
Theorem non_object_json_raises_attribute_error :
  forall (W : Type) (env : Env W) (s : state W) (rk : pyvalue)
         summary severity source custom_details dedup_key resp w' v,
    routing_key_of s = Some rk ->
    truthy rk = true ->
    env_post env
      (expected_post (trigger_body rk summary severity source
                                   (given custom_details) (given dedup_key)))
      (world s) = (inr resp, w') ->
    ~ (400 <= status_code resp < 600) ->
    json_result resp = inr v ->
    (forall d, v <> PyDict d) ->
    let r := run env (trigger_incident summary severity source
                                       custom_details dedup_key) s in
    fst r = Raised (AttributeError "object has no attribute 'get'")
    /\ isinstance_RequestException
         (AttributeError "object has no attribute 'get'") = false
    /\ logs (trace (snd r)) = logs (trace s)
    /\ posts (trace (snd r))
       = posts (trace s)
         ++ [expected_post (trigger_body rk summary severity source
                                         (given custom_details) (given dedup_key))].
Proof.
  intros W env s rk summary severity source cd dk resp w' v
         Hrk Htruthy Hpost Hst Hjson Hv r.
  pose proof (trigger_incident_after_accepted env s rk Hrk Htruthy
                _ _ _ _ _ resp w' Hpost Hst) as H.
  cbv zeta in H. rewrite Hjson in H. fold r in H.
  assert (Hr : fst r = Raised (AttributeError "object has no attribute 'get'")
               /\ logs (trace (snd r)) = logs (trace s)).
  { destruct v; try exact H. exfalso. eapply Hv. reflexivity. }
  destruct Hr as [Hout Hlogs].
  split; [exact Hout |]. split; [reflexivity |]. split; [exact Hlogs |].
  apply trigger_incident_posts; assumption.
Qed.

(** X3 on the body [null]. *)
Lemma non_object_json_raises_attribute_error_witness :
  ~ (400 <= status_code (response_of 202 (lit "null") PyNone) < 600)
  /\ (forall d, PyNone <> PyDict d)
  /\ fst (run (test_env (inr (response_of 202 (lit "null") PyNone)))
              (trigger_incident (lit "Test failure") (lit "error")
                                (lit "mai-service") None None)
              (at_client tt test_client))
     = Raised (AttributeError "object has no attribute 'get'").
Proof.
  assert (Hst : ~ (400 <= status_code (response_of 202 (lit "null") PyNone) < 600))
    by (simpl; lia).
  assert (Hv : forall d, PyNone <> PyDict d) by (intros d; discriminate).
  split; [exact Hst |]. split; [exact Hv |].
  exact (proj1 (non_object_json_raises_attribute_error unit
                  (test_env (inr (response_of 202 (lit "null") PyNone)))
                  (at_client tt test_client) (PyStr test_routing_key)
                  (lit "Test failure") (lit "error") (lit "mai-service")
                  None None (response_of 202 (lit "null") PyNone) tt PyNone
                  eq_refl eq_refl eq_refl Hst eq_refl Hv)).
Defined.

(** X4.  If every exception the transport raises is a
    [RequestException], [resolve_incident] never raises: on any client
    that has a [routing_key] attribute, usable or not, and for any
    arguments, it returns a boolean. *)
Theorem resolve_incident_returns_a_bool :
  forall (W : Type) (env : Env W) (s : state W) (rk : pyvalue)
         dedup_key summary,
    routing_key_of s = Some rk ->
    (forall req e w', env_post env req (world s) = (inl e, w') ->
                      isinstance_RequestException e = true) ->
    exists b, fst (run env (resolve_incident dedup_key summary) s)
              = Returned (PyBool b).
Proof.
  intros W env s rk dk summary Hrk Henv.
  destruct (truthy rk) eqn:Htruthy.
  - destruct (env_post env (expected_post (resolve_body rk dk (given summary)))
                       (world s)) as [ans w'] eqn:Hpost.
    rewrite (resolve_incident_outcome env s rk Hrk Htruthy dk summary ans w' Hpost).
    destruct ans as [e | resp].
    + rewrite (Henv _ e w' Hpost). eauto.
    + destruct (_ && _); eauto.
  - rewrite (resolve_incident_short_circuit env s rk dk summary Hrk Htruthy).
    simpl. eauto.
Qed.

(** X4 on a transport that always fails with a connection error. *)
Lemma resolve_incident_returns_a_bool_witness :
  routing_key_of (at_client tt test_client) = Some (PyStr test_routing_key)
  /\ exists b, fst (run (test_env (inl ConnectionError))
                        (resolve_incident (lit "test-dedup-key") None)
                        (at_client tt test_client))
               = Returned (PyBool b).
Proof.
  split; [reflexivity |].
  refine (resolve_incident_returns_a_bool unit
            (test_env (inl ConnectionError)) (at_client tt test_client)
            (PyStr test_routing_key) (lit "test-dedup-key") None eq_refl _).
  intros req e w' H. injection H as <- _. reflexivity.
Defined.

(** X5.  The success path.  On a client with a usable routing key, a
    response with any status outside 400..599 (2xx or not) counts as
    success.  [resolve_incident] then returns [True] and logs one INFO
    record carrying [dedup_key]; [trigger_incident], when the body is a
    JSON object, returns the key and logs one INFO record carrying the
    key it returns. *)
Theorem accepted_status_is_success :
  forall (W : Type) (env : Env W) (s : state W) (rk : pyvalue),
    routing_key_of s = Some rk ->
    truthy rk = true ->
    (forall summary severity source custom_details dedup_key resp w' d,
        env_post env
          (expected_post (trigger_body rk summary severity source
                                       (given custom_details) (given dedup_key)))
          (world s) = (inr resp, w') ->
        ~ (400 <= status_code resp < 600) ->
        json_result resp = inr (PyDict d) ->
        let r := run env (trigger_incident summary severity source
                                           custom_details dedup_key) s in
        let key := py_or (default PyNone (dict_get d (lit "dedup_key")))
                         (of_opt_str dedup_key) in
        fst r = Returned key
        /\ logs (trace (snd r))
           = logs (trace s)
             ++ [(INFO, "PagerDuty incident triggered successfully: "%string,
                  FmtValue key)])
    /\ (forall dedup_key summary resp w',
           env_post env (expected_post (resolve_body rk dedup_key (given summary)))
                    (world s) = (inr resp, w') ->
           ~ (400 <= status_code resp < 600) ->
           let r := run env (resolve_incident dedup_key summary) s in
           fst r = Returned (PyBool true)
           /\ logs (trace (snd r))
              = logs (trace s)
                ++ [(INFO, "PagerDuty incident resolved successfully: "%string,
                     FmtValue (PyStr dedup_key))]).
Proof.
  intros W env s rk Hrk Htruthy. split.
  - intros summary severity source cd dk resp w' d Hpost Hst Hjson r key.
    pose proof (trigger_incident_after_accepted env s rk Hrk Htruthy
                  _ _ _ _ _ resp w' Hpost Hst) as H.
    cbv zeta in H. rewrite Hjson in H. exact H.
  - intros dk summary resp w' Hpost Hst.
    apply (resolve_incident_after_accepted env s rk Hrk Htruthy
             _ _ resp w' Hpost Hst).
Qed.

(** X5 on a response with status 304 that echoes a key. *)
Lemma accepted_status_is_success_witness :
  ~ (400 <= status_code (echo_response 304 "test-incident-key") < 600)
  /\ fst (run (test_env (inr (echo_response 304 "test-incident-key")))
              (trigger_incident (lit "Test validation failure") (lit "error")
                                (lit "mai-service") None None)
              (at_client tt test_client))
     = Returned (PyStr (lit "test-incident-key")).
Proof.
  assert (Hst : ~ (400 <= status_code (echo_response 304 "test-incident-key") < 600))
    by (simpl; lia).
  split; [exact Hst |].
  exact (proj1 (proj1 (accepted_status_is_success unit
                  (test_env (inr (echo_response 304 "test-incident-key")))
                  (at_client tt test_client) (PyStr test_routing_key)
                  eq_refl eq_refl)
               (lit "Test validation failure") (lit "error") (lit "mai-service")
               None None (echo_response 304 "test-incident-key") tt
               [(lit "dedup_key", PyStr (lit "test-incident-key"))]
               eq_refl Hst eq_refl)).
Defined.

(** X6.  What a failed request leaves in the log.  On a client with a
    usable routing key: when the status is in 400..599, either method
    logs two ERROR records, the [HTTPError] that [raise_for_status]
    built from the response and then the text of the response; when
    the POST raises a [RequestException], it logs the exception, and
    the text of the response exactly if the exception carries one. *)
Theorem failed_request_is_logged :
  forall (W : Type) (env : Env W) (s : state W) (rk : pyvalue),
    routing_key_of s = Some rk ->
    truthy rk = true ->
    (forall summary severity source custom_details dedup_key resp w',
        env_post env
          (expected_post (trigger_body rk summary severity source
                                       (given custom_details) (given dedup_key)))
          (world s) = (inr resp, w') ->
        400 <= status_code resp < 600 ->
        logs (trace (snd (run env (trigger_incident summary severity source
                                                    custom_details dedup_key) s)))
        = logs (trace s)
          ++ [(ERROR, "Failed to trigger PagerDuty incident: "%string,
               FmtExn (HTTPError (if status_code resp <? 500
                                  then " Client Error: " else " Server Error: ")
                                 resp));
              (ERROR, "Response: "%string, FmtValue (PyStr (text resp)))])
    /\ (forall dedup_key summary resp w',
           env_post env (expected_post (resolve_body rk dedup_key (given summary)))
                    (world s) = (inr resp, w') ->
           400 <= status_code resp < 600 ->
           logs (trace (snd (run env (resolve_incident dedup_key summary) s)))
           = logs (trace s)
             ++ [(ERROR, "Failed to resolve PagerDuty incident: "%string,
                  FmtExn (HTTPError (if status_code resp <? 500
                                     then " Client Error: " else " Server Error: ")
                                    resp));
                 (ERROR, "Response: "%string, FmtValue (PyStr (text resp)))])
    /\ (forall summary severity source custom_details dedup_key e w',
           env_post env
             (expected_post (trigger_body rk summary severity source
                                          (given custom_details) (given dedup_key)))
             (world s) = (inl e, w') ->
           isinstance_RequestException e = true ->
           logs (trace (snd (run env (trigger_incident summary severity source
                                                       custom_details dedup_key) s)))
           = logs (trace s)
             ++ (ERROR, "Failed to trigger PagerDuty incident: "%string, FmtExn e)
                :: match exc_response e with
                   | Some resp => [(ERROR, "Response: "%string,
                                    FmtValue (PyStr (text resp)))]
                   | None => []
                   end)
    /\ (forall dedup_key summary e w',
           env_post env (expected_post (resolve_body rk dedup_key (given summary)))
                    (world s) = (inl e, w') ->
           isinstance_RequestException e = true ->
           logs (trace (snd (run env (resolve_incident dedup_key summary) s)))
           = logs (trace s)
             ++ (ERROR, "Failed to resolve PagerDuty incident: "%string, FmtExn e)
                :: match exc_response e with
                   | Some resp => [(ERROR, "Response: "%string,
                                    FmtValue (PyStr (text resp)))]
                   | None => []
                   end).
Proof.
  intros W env s rk Hrk Htruthy. split; [| split; [| split]].
  - intros summary severity source cd dk resp w' Hpost Hst.
    apply (trigger_incident_after_error_status env s rk Hrk Htruthy
             _ _ _ _ _ resp w' Hpost Hst).
  - intros dk summary resp w' Hpost Hst.
    apply (resolve_incident_after_error_status env s rk Hrk Htruthy
             _ _ resp w' Hpost Hst).
  - intros summary severity source cd dk e w' Hpost He.
    apply (trigger_incident_after_raise env s rk Hrk Htruthy
             _ _ _ _ _ e w' Hpost). exact He.
  - intros dk summary e w' Hpost He.
    apply (resolve_incident_after_raise env s rk Hrk Htruthy _ _ e w' Hpost).
    exact He.
Qed.

(** X6 on a 503 whose body is a short text. *)
Lemma failed_request_is_logged_witness :
  400 <= status_code (response_of 503 (lit "busy") PyNone) < 600
  /\ logs (trace (snd (run (test_env (inr (response_of 503 (lit "busy") PyNone)))
                           (resolve_incident (lit "test-dedup-key") None)
                           (at_client tt test_client))))
     = [(ERROR, "Failed to resolve PagerDuty incident: "%string,
         FmtExn (HTTPError " Server Error: "
                           (response_of 503 (lit "busy") PyNone)));
        (ERROR, "Response: "%string, FmtValue (PyStr (lit "busy")))].
Proof.
  assert (Hst : 400 <= status_code (response_of 503 (lit "busy") PyNone) < 600)
    by (simpl; lia).
  split; [exact Hst |].
  exact (proj1 (proj2 (failed_request_is_logged unit
                  (test_env (inr (response_of 503 (lit "busy") PyNone)))
                  (at_client tt test_client) (PyStr test_routing_key)
                  eq_refl eq_refl))
               (lit "test-dedup-key") None
               (response_of 503 (lit "busy") PyNone) tt eq_refl Hst).
Defined.

(* ===================================================================== *)
(** ** Further properties: what the methods never do, and sequences *)
(* ===================================================================== *)

Section Avoiding.
Context {W : Type} (env : Env W).

(** A program that avoids [bad] adds no [bad] operation to the trace.
    By induction on the derivation of [avoids]. *)
Lemma avoids_trace {A} (bad : op -> bool) (p : prog A) (s : state W) :
  avoids bad p ->
  List.filter bad (trace (snd (run env p s))) = List.filter bad (trace s).
Proof.
  intros Hav. revert s.
  induction Hav as [a | e | o k Ho Hk IH]; intros s; simpl; try reflexivity.
  pose proof (perform_trace env o s) as Ht.
  destruct (perform env o s) as [r s']. simpl in Ht.
  rewrite IH, Ht, List.filter_app. simpl. rewrite Ho. apply app_nil_r.
Qed.

Lemma posts_filter (tr : list op) : posts (List.filter is_post_op tr) = posts tr.
Proof.
  induction tr as [| o tr IH]; simpl; [reflexivity |].
  destruct o; simpl; rewrite ?IH; reflexivity.
Qed.

Lemma secret_reads_filter (tr : list op) :
  secret_reads (List.filter is_secret_op tr) = secret_reads tr.
Proof.
  induction tr as [| o tr IH]; simpl; [reflexivity |].
  destruct o; simpl; rewrite ?IH; reflexivity.
Qed.

Lemma client_creations_filter (tr : list op) :
  client_creations (List.filter is_secret_op tr) = client_creations tr.
Proof.
  induction tr as [| o tr IH]; simpl; [reflexivity |].
  destruct o; simpl; rewrite ?IH; reflexivity.
Qed.

End Avoiding.

Lemma avoids_bind {A B} bad (p : prog A) (f : A -> prog B) :
  avoids bad p -> (forall a, avoids bad (f a)) -> avoids bad (bind p f).
Proof.
  intros Hp Hf. induction Hp as [a | e | o k Ho Hk IH]; simpl.
  - apply Hf.
  - constructor.
  - constructor; assumption.
Qed.

Lemma avoids_try_except {A} bad (p : prog A) catches handler :
  avoids bad p -> (forall e, avoids bad (handler e)) ->
  avoids bad (try_except p catches handler).
Proof.
  intros Hp Hh. induction Hp as [a | e | o k Ho Hk IH]; simpl.
  - constructor.
  - destruct (catches e); [apply Hh | constructor].
  - constructor; assumption.
Qed.

Ltac avoids_step :=
  match goal with
  | |- avoids _ (bind _ _) => apply avoids_bind
  | |- avoids _ (try_except _ _ _) => apply avoids_try_except
  | |- avoids _ (Do _ _) => constructor; [reflexivity |]
  | |- avoids _ (Ret _) => constructor
  | |- avoids _ (Raise _) => constructor
  | |- avoids _ (if ?b then _ else _) => destruct b
  | |- avoids _ (match ?x with _ => _ end) => destruct x
  | |- forall _, _ => intro
  end.

Lemma avoids_secret_call (c : call) : avoids is_secret_op (call_prog c).
Proof.
  destruct c; simpl;
    unfold trigger_incident, resolve_incident, getattr, requests_post,
      logger_error, logger_info, json, py_get, lift_result, raise_for_status,
      log_request_failure, logger_error;
    repeat avoids_step.
Qed.

Lemma avoids_post_init cls project rks :
  avoids is_post_op (__init__ cls project rks).
Proof.
  unfold __init__, setattr, SecretManagerServiceClient, access_secret_version,
    decode_utf8, logger_error, lift_result.
  repeat avoids_step.
Qed.

(** X7.  The secret manager is only ever used by [__init__], and
    [__init__] never uses the HTTP transport: whatever calls are made
    on a client, no secret manager client is created and no secret is
    read by them (the key is never refreshed), and a construction makes
    no POST. *)
Theorem secret_manager_only_at_construction :
  forall (W : Type) (env : Env W),
    (forall (cs : list call) (s : state W),
        let after := run_calls env cs s in
        secret_reads (trace (snd after)) = secret_reads (trace s)
        /\ client_creations (trace (snd after)) = client_creations (trace s))
    /\ (forall cls project rks (w : W),
           posts (trace (snd (construct env cls project rks w))) = []).
Proof.
  intros W env. split.
  - intros cs. induction cs as [| c cs IH]; intros s; simpl; [split; reflexivity |].
    pose proof (avoids_trace env is_secret_op (call_prog c) s
                  (avoids_secret_call c)) as Hc.
    destruct (run env (call_prog c) s) as [o s1]. simpl in Hc.
    specialize (IH s1). cbv zeta in IH.
    destruct (run_calls env cs s1) as [os s2]. simpl in *.
    destruct IH as [Hr Hn].
    rewrite Hr, Hn, <- secret_reads_filter, <- client_creations_filter, Hc,
      secret_reads_filter, client_creations_filter.
    split; reflexivity.
  - intros cls project rks w. unfold construct.
    rewrite <- posts_filter.
    rewrite (avoids_trace env is_post_op _ _ (avoids_post_init cls project rks)).
    reflexivity.
Qed.

(** X8.  On a client with a usable routing key, a sequence of calls
    sends exactly one request per call, in order, each with the body of
    its own call: nothing is merged, skipped or retried, whatever the
    transport answers.  In particular two identical calls are two
    identical requests. *)
Theorem calls_send_one_request_each :
  forall (W : Type) (env : Env W) (cs : list call) (s : state W) (rk : pyvalue),
    routing_key_of s = Some rk ->
    truthy rk = true ->
    posts (trace (snd (run_calls env cs s)))
    = posts (trace s) ++ map (call_request rk) cs.
Proof.
  intros W env cs. induction cs as [| c cs IH]; intros s rk Hrk Htruthy; simpl.
  - by rewrite app_nil_r.
  - assert (Hposts : posts (trace (snd (run env (call_prog c) s)))
                     = posts (trace s) ++ [call_request rk c]).
    { destruct c; simpl;
        [apply trigger_incident_posts | apply resolve_incident_posts];
        assumption. }
    assert (Hself : self (snd (run env (call_prog c) s)) = self s).
    { apply read_only_self. destruct c; simpl;
        [apply read_only_trigger_incident | apply read_only_resolve_incident]. }
    destruct (run env (call_prog c) s) as [o s1]. simpl in Hposts, Hself.
    assert (Hrk1 : routing_key_of s1 = Some rk).
    { unfold routing_key_of in *. rewrite Hself. exact Hrk. }
    specialize (IH s1 rk Hrk1 Htruthy).
    destruct (run_calls env cs s1) as [os s2]. simpl in *.
    rewrite IH, Hposts, <- app_assoc. reflexivity.
Qed.

(** X8 on two identical calls of [resolve_incident], the first of which
    fails. *)
Lemma calls_send_one_request_each_witness :
  let s := mkState [inr (response_of 503 [] PyNone);
                    inr (response_of 202 (lit "{}") (PyDict []))]
                   test_client [] in
  routing_key_of s = Some (PyStr test_routing_key)
  /\ truthy (PyStr test_routing_key) = true
  /\ posts (trace (snd (run_calls
              (scripted_env (inr tt) (inr (bytes_of "test-routing-key-123")))
              [CallResolve (lit "test-dedup-key") None;
               CallResolve (lit "test-dedup-key") None] s)))
     = [expected_post (resolve_body (PyStr test_routing_key)
                                    (lit "test-dedup-key") None);
        expected_post (resolve_body (PyStr test_routing_key)
                                    (lit "test-dedup-key") None)].
Proof.
  cbv zeta. split; [reflexivity |]. split; [reflexivity |].
  exact (calls_send_one_request_each (list (exn + Response))
           (scripted_env (inr tt) (inr (bytes_of "test-routing-key-123")))
           [CallResolve (lit "test-dedup-key") None;
            CallResolve (lit "test-dedup-key") None]
           (mkState [inr (response_of 503 [] PyNone);
                     inr (response_of 202 (lit "{}") (PyDict []))]
                    test_client [])
           (PyStr test_routing_key) eq_refl eq_refl).
Defined.

(** X9.  On a client whose routing key is unusable ([None] or empty),
    every call of every sequence gives up: the results are the
    sentinels of the calls, in order, no POST is made and the world is
    as before. *)
Theorem unusable_key_every_call_gives_up :
  forall (W : Type) (env : Env W) (cs : list call) (s : state W) (rk : pyvalue),
    routing_key_of s = Some rk ->
    truthy rk = false ->
    let after := run_calls env cs s in
    fst after = map (fun c => Returned (call_sentinel c)) cs
    /\ posts (trace (snd after)) = posts (trace s)
    /\ world (snd after) = world s.
Proof.
  intros W env cs. induction cs as [| c cs IH]; intros s rk Hrk Hfalsy; simpl.
  - repeat split; reflexivity.
  - assert (Hrun : exists tr,
               run env (call_prog c) s
               = (Returned (call_sentinel c),
                  mkState (world s) (self s) (trace s ++ tr))
               /\ posts tr = []).
    { destruct c; simpl.
      - eexists. split;
          [apply (trigger_incident_short_circuit env s rk); assumption
          | reflexivity].
      - eexists. split;
          [apply (resolve_incident_short_circuit env s rk); assumption
          | reflexivity]. }
    destruct Hrun as (tr & Hrun & Htr). rewrite Hrun.
    specialize (IH (mkState (world s) (self s) (trace s ++ tr)) rk Hrk Hfalsy).
    cbv zeta in IH.
    destruct (run_calls env cs _) as [os s2]. simpl in *.
    destruct IH as (Hos & Hposts & Hworld).
    rewrite Hos, Hposts, Hworld, posts_app, Htr, app_nil_r.
    repeat split; reflexivity.
Qed.

(** X9 on the client of the repository's test of a failed
    initialisation. *)
Lemma unusable_key_every_call_gives_up_witness :
  let s := at_client tt (client_with PagerDutyClient (lit "test-project") PyNone) in
  routing_key_of s = Some PyNone
  /\ truthy PyNone = false
  /\ fst (run_calls (test_env (inr (echo_response 202 "test-incident-key")))
                    [CallTrigger (lit "test") (lit "error") (lit "mai-service")
                                 None None;
                     CallResolve (lit "test") None] s)
     = [Returned PyNone; Returned (PyBool false)].
Proof.
  cbv zeta. split; [reflexivity |]. split; [reflexivity |].
  exact (proj1 (unusable_key_every_call_gives_up unit
                  (test_env (inr (echo_response 202 "test-incident-key")))
                  [CallTrigger (lit "test") (lit "error") (lit "mai-service")
                               None None;
                   CallResolve (lit "test") None]
                  (at_client tt (client_with PagerDutyClient (lit "test-project")
                                             PyNone))
                  PyNone eq_refl eq_refl)).
Defined.

(* ===================================================================== *)
(** ** Further properties: the routing key that construction stores *)
(* ===================================================================== *)

(** [lstrip] drops a prefix of whitespace and stops at the first code
    point that is not. *)
Lemma lstrip_split (s : str) :
  exists ws, s = ws ++ lstrip s /\ Forall (fun c => is_space c = true) ws.
Proof.
  induction s as [| c s IH]; simpl.
  - exists []. split; [reflexivity | constructor].
  - destruct (is_space c) eqn:Hc.
    + destruct IH as (ws & Hs & Hws). exists (c :: ws). split.
      * simpl. congruence.
      * constructor; assumption.
    + exists []. split; [reflexivity | constructor].
Qed.

Lemma lstrip_head (s : str) c t : lstrip s = c :: t -> is_space c = false.
Proof.
  induction s as [| c0 s IH]; simpl; [discriminate |].
  destruct (is_space c0) eqn:Hc; [exact IH |].
  intros [= <- _]. exact Hc.
Qed.

(** [rstrip] drops a suffix of whitespace. *)
Lemma rstrip_split (s : str) :
  exists ws, s = rstrip s ++ ws /\ Forall (fun c => is_space c = true) ws.
Proof.
  unfold rstrip. destruct (lstrip_split (rev s)) as (ws & Hs & Hws).
  exists (rev ws). split.
  - rewrite <- rev_app_distr, <- Hs, rev_involutive. reflexivity.
  - apply Forall_rev. exact Hws.
Qed.

Lemma rstrip_last (s : str) c t d :
  rstrip s = c :: t -> is_space (List.last (c :: t) d) = false.
Proof.
  unfold rstrip. intros Hr.
  destruct (lstrip (rev s)) as [| c0 t0] eqn:Hl; [discriminate |].
  rewrite <- Hr. simpl. rewrite List.last_last.
  eapply lstrip_head. exact Hl.
Qed.

Lemma rstrip_head (c : codepoint) (t : str) :
  is_space c = false -> exists u, rstrip (c :: t) = c :: u.
Proof.
  intros Hc. destruct (rstrip_split (c :: t)) as (ws & Hs & Hws).
  destruct (rstrip (c :: t)) as [| c' u].
  - simpl in Hs. subst ws. inversion Hws; congruence.
  - simpl in Hs. injection Hs as <- _. eauto.
Qed.

(** What [str.strip()] returns starts and ends with a code point that
    is not whitespace, or is empty. *)
Lemma strip_trimmed (s : str) : trimmed (strip s).
Proof.
  unfold strip. destruct (lstrip s) as [| c t] eqn:Hl; [exact I |].
  pose proof (lstrip_head s c t Hl) as Hc.
  destruct (rstrip_head c t Hc) as [u Hu]. rewrite Hu. simpl. split.
  - exact Hc.
  - apply (rstrip_last (c :: t) c u c Hu).
Qed.

(** On ASCII, UTF-8 decoding is the identity. *)
Lemma utf8_decode_ascii_cons (b : Byte.byte) (rest : bytes) :
  (byte_val b < 128)%N ->
  utf8_decode (b :: rest) = option_map (cons (byte_val b)) (utf8_decode rest).
Proof.
  intros Hb. apply N.ltb_lt in Hb.
  unfold utf8_decode at 1; fold utf8_decode. cbv zeta. rewrite Hb. reflexivity.
Qed.

Lemma utf8_decode_ascii (data : bytes) :
  all_ascii data -> utf8_decode data = Some (map byte_val data).
Proof.
  unfold all_ascii. intros H. induction H as [| b data Hb _ IH].
  - reflexivity.
  - rewrite utf8_decode_ascii_cons by exact Hb. rewrite IH. reflexivity.
Qed.

(** X10.  The invariant of [self.routing_key].  When construction
    returns, and after any calls made on the client since, the routing
    key is either [None] or a string that neither starts nor ends with
    whitespace. *)
Theorem routing_key_is_none_or_trimmed :
  forall (W : Type) (env : Env W) (cls : pyclass) (project : str)
         (rks : option str) (w : W) (cs : list call),
    fst (construct env cls project rks w) = Returned tt ->
    let after := run_calls env cs (snd (construct env cls project rks w)) in
    routing_key_of (snd after) = Some PyNone
    \/ exists k, routing_key_of (snd after) = Some (PyStr k) /\ trimmed k.
Proof.
  intros W env cls project rks w cs Hret after.
  unfold routing_key_of. subst after. rewrite run_calls_self.
  revert Hret. init_cases env w; intros Hret; try discriminate.
  - left. apply lookup_insert_eq.
  - left. apply lookup_insert_eq.
  - right. eexists. split; [apply lookup_insert_eq | apply strip_trimmed].
  - left. apply lookup_insert_eq.
Qed.

(** X10 on a secret with surrounding whitespace, after two calls. *)
Lemma routing_key_is_none_or_trimmed_witness :
  let env := fixed_env (inr tt) (inr (bytes_of "  test-routing-key-123 "))
                       (inl ConnectionError) in
  let built := construct env PagerDutyClient (lit "test-project") None tt in
  let after := run_calls env [CallResolve (lit "k") None;
                              CallResolve (lit "k") None] (snd built) in
  fst built = Returned tt
  /\ (routing_key_of (snd after) = Some PyNone
      \/ exists k, routing_key_of (snd after) = Some (PyStr k) /\ trimmed k).
Proof.
  cbv zeta.
  assert (Hret : fst (construct
                        (fixed_env (inr tt) (inr (bytes_of "  test-routing-key-123 "))
                                   (inl ConnectionError))
                        PagerDutyClient (lit "test-project") None tt)
                 = Returned tt) by (vm_compute; reflexivity).
  split; [exact Hret |].
  exact (routing_key_is_none_or_trimmed unit
           (fixed_env (inr tt) (inr (bytes_of "  test-routing-key-123 "))
                      (inl ConnectionError))
           PagerDutyClient (lit "test-project") None tt
           [CallResolve (lit "k") None; CallResolve (lit "k") None] Hret).
Defined.

(** X11.  [self.gcp_project] is the constructor's argument whatever
    happens to the secret: it is assigned before the [try], so it is
    there when construction returns with or without a routing key, and
    even when an exception escapes; calls made later leave it there. *)
Theorem gcp_project_is_always_stored :
  forall (W : Type) (env : Env W) (cls : pyclass) (project : str)
         (rks : option str) (w : W) (cs : list call),
    let built := construct env cls project rks w in
    ob_dict (self (snd built)) !! "gcp_project" = Some (PyStr project)
    /\ ob_dict (self (snd (run_calls env cs (snd built)))) !! "gcp_project"
       = Some (PyStr project).
Proof.
  intros W env cls project rks w cs built. subst built.
  rewrite run_calls_self.
  assert (H : ob_dict (self (snd (construct env cls project rks w)))
              !! "gcp_project" = Some (PyStr project)).
  { init_cases env w;
      rewrite ?lookup_insert_ne by discriminate; apply lookup_insert_eq. }
  split; exact H.
Qed.

(** X12.  [__init__] only catches [Exception].  An exception outside
    it (such as [KeyboardInterrupt]) raised while the secret manager
    client is created or the secret is fetched leaves construction as
    it is: it reaches the caller, nothing is logged, and
    [routing_key] has not been assigned. *)
Theorem construction_lets_base_exceptions_through :
  forall (W : Type) (env : Env W) (cls : pyclass) (project : str)
         (rks : option str) (w : W) (e : exn),
    let path := secret_path_of project (str_or rks (ROUTING_KEY_SECRET cls)) in
    let created := env_secret_client env w in
    let fetched := env_access_secret env path (snd created) in
    let built := construct env cls project rks w in
    isinstance_Exception e = false ->
    fst created = inl e \/ (fst created = inr tt /\ fst fetched = inl e) ->
    fst built = Raised e
    /\ routing_key_of (snd built) = None
    /\ logs (trace (snd built)) = []
    /\ attr_writes (trace (snd built)) = [("gcp_project", PyStr project)].
Proof.
  intros W env cls project rks w e. cbv zeta. unfold routing_key_of.
  init_cases env w; intros He [Hc | [Hc Hf]]; try discriminate;
    try (injection Hc as ->); try (injection Hf as ->); try congruence;
    (split; [reflexivity |]; split; [| split; reflexivity]);
    simpl; rewrite lookup_insert_ne by discriminate; apply lookup_empty.
Qed.

(** X12 on an interrupt during the fetch. *)
Lemma construction_lets_base_exceptions_through_witness :
  isinstance_Exception KeyboardInterrupt = false
  /\ fst (construct (fixed_env (inr tt) (inl KeyboardInterrupt)
                               (inl ConnectionError))
                    PagerDutyClient (lit "test-project") None tt)
     = Raised KeyboardInterrupt.
Proof.
  split; [reflexivity |].
  exact (proj1 (construction_lets_base_exceptions_through unit
                  (fixed_env (inr tt) (inl KeyboardInterrupt)
                             (inl ConnectionError))
                  PagerDutyClient (lit "test-project") None tt
                  KeyboardInterrupt eq_refl
                  (or_intror (conj eq_refl eq_refl)))).
Defined.

(** X13.  A secret made of ASCII bytes is always accepted: decoding
    cannot fail on it, so when the fetch succeeds construction returns
    with a string as routing key, namely the same characters with the
    surrounding whitespace stripped. *)
Theorem ascii_secret_is_stored :
  forall (W : Type) (env : Env W) (cls : pyclass) (project : str)
         (rks : option str) (w : W) (data : bytes),
    let path := secret_path_of project (str_or rks (ROUTING_KEY_SECRET cls)) in
    let created := env_secret_client env w in
    let built := construct env cls project rks w in
    fst created = inr tt ->
    fst (env_access_secret env path (snd created)) = inr data ->
    all_ascii data ->
    fst built = Returned tt
    /\ routing_key_of (snd built) = Some (PyStr (strip (map byte_val data))).
Proof.
  intros W env cls project rks w data path created built Hc Hf Hascii.
  apply (construct_stores_secret env cls project rks w data (map byte_val data)
           Hc Hf).
  apply utf8_decode_ascii. exact Hascii.
Qed.

(** X13 on the secret of the repository's tests followed by a newline. *)
Lemma ascii_secret_is_stored_witness :
  all_ascii [x6b; x65; x79; x0a]%byte
  /\ routing_key_of
       (snd (construct (fixed_env (inr tt) (inr [x6b; x65; x79; x0a]%byte)
                                  (inl ConnectionError))
                       PagerDutyClient (lit "test-project") None tt))
     = Some (PyStr (strip (map byte_val [x6b; x65; x79; x0a]%byte))).
Proof.
  assert (Hascii : all_ascii [x6b; x65; x79; x0a]%byte).
  { unfold all_ascii. repeat constructor. }
  split; [exact Hascii |].
  exact (proj2 (ascii_secret_is_stored unit
                  (fixed_env (inr tt) (inr [x6b; x65; x79; x0a]%byte)
                             (inl ConnectionError))
                  PagerDutyClient (lit "test-project") None tt
                  [x6b; x65; x79; x0a]%byte eq_refl eq_refl Hascii)).
Defined.

Lemma lstrip_blank (s : str) :
  Forall (fun c => is_space c = true) s -> lstrip s = [].
Proof.
  intros H. induction H as [| c s Hc _ IH]; simpl; [reflexivity |].
  rewrite Hc. exact IH.
Qed.

(** [strip] returns the empty string exactly on strings made of
    whitespace only. *)
Lemma strip_nil_iff (s : str) :
  strip s = [] <-> Forall (fun c => is_space c = true) s.
Proof.
  split.
  - unfold strip. intros Hs.
    destruct (lstrip_split s) as (ws & Heq & Hws).
    destruct (lstrip s) as [| c t] eqn:Hl.
    + rewrite app_nil_r in Heq. subst ws. exact Hws.
    + exfalso. pose proof (lstrip_head s c t Hl) as Hc.
      destruct (rstrip_head c t Hc) as [u Hu]. congruence.
  - intros H. unfold strip. rewrite (lstrip_blank s H). reflexivity.
Qed.

Lemma blank_or_not (s : str) :
  Forall (fun c => is_space c = true) s
  \/ Exists (fun c => is_space c = false) s.
Proof.
  induction s as [| c s [IH | IH]].
  - left. constructor.
  - destruct (is_space c) eqn:Hc.
    + left. constructor; assumption.
    + right. apply Exists_cons_hd. exact Hc.
  - right. apply Exists_cons_tl. exact IH.
Qed.

Lemma blank_and_not (s : str) :
  Forall (fun c => is_space c = true) s ->
  Exists (fun c => is_space c = false) s -> False.
Proof.
  intros Hall Hex. induction Hex as [c s Hc | c s _ IH].
  - inversion Hall; congruence.
  - inversion Hall; auto.
Qed.

(** X14.  When the secret is fetched and is valid UTF-8, the client is
    able to send (its routing key is truthy) exactly when the secret
    has a character that is not whitespace; a blank secret gives a
    client that gives up on every call. *)
Theorem client_usable_iff_secret_not_blank :
  forall (W : Type) (env : Env W) (cls : pyclass) (project : str)
         (rks : option str) (w : W) (data : bytes) (decoded : str),
    let path := secret_path_of project (str_or rks (ROUTING_KEY_SECRET cls)) in
    let created := env_secret_client env w in
    let built := construct env cls project rks w in
    fst created = inr tt ->
    fst (env_access_secret env path (snd created)) = inr data ->
    utf8_decode data = Some decoded ->
    exists k,
      routing_key_of (snd built) = Some k
      /\ (truthy k = true <-> Exists (fun c => is_space c = false) decoded).
Proof.
  intros W env cls project rks w data decoded path created built Hc Hf Hd.
  destruct (construct_stores_secret env cls project rks w data decoded Hc Hf Hd)
    as [_ Hkey].
  exists (PyStr (strip decoded)). split; [exact Hkey |].
  simpl. destruct (strip decoded) as [| c t] eqn:Hs.
  - split; [discriminate |]. intros Hex. exfalso.
    apply (blank_and_not decoded); [| exact Hex].
    apply strip_nil_iff. exact Hs.
  - split; [| reflexivity]. intros _.
    destruct (blank_or_not decoded) as [Hall | Hex]; [| exact Hex].
    apply strip_nil_iff in Hall. congruence.
Qed.

(** X14 on the secret of the repository's tests. *)
Lemma client_usable_iff_secret_not_blank_witness :
  utf8_decode (bytes_of "test-routing-key-123") = Some test_routing_key
  /\ exists k,
      routing_key_of (snd (construct (test_env (inl ConnectionError))
                                     PagerDutyClient (lit "test-project") None tt))
      = Some k
      /\ (truthy k = true
          <-> Exists (fun c => is_space c = false) test_routing_key).
Proof.
  assert (Hd : utf8_decode (bytes_of "test-routing-key-123")
               = Some test_routing_key) by (vm_compute; reflexivity).
  split; [exact Hd |].
  exact (client_usable_iff_secret_not_blank unit
           (test_env (inl ConnectionError)) PagerDutyClient (lit "test-project")
           None tt (bytes_of "test-routing-key-123") test_routing_key
           eq_refl eq_refl Hd).
Defined.
